(** * gatsby-source-dropbox: the ingestion pipeline of [src/gatsby-node.js]

    A shallow embedding of the plugin's single source file: the listing step
    ([getData]), the entry classifier ([extractFiles], [extractFolders],
    [getNodeType]), the record builder ([createNodeData]), the graph linker
    ([getParentFolderName], [getLinkedNodes]) and the payload materializer
    ([processRemoteFile]), driven by [sourceNodes].

    JavaScript strings are modelled as [string]; the few built-ins the plugin
    calls on them ([lastIndexOf], [substring], [replace], [JSON.stringify]) and
    Node's [path.extname] are written out below.  Effects (the cache, the
    Dropbox client, the Gatsby actions) are threaded through an explicit world
    that carries the cache and the trace of calls made so far. *)

From Stdlib Require Import String Ascii List ZArith Lia Bool.
From stdpp Require Import base option gmap strings.
Import ListNotations.

Local Open Scope string_scope.
Local Open Scope list_scope.
Local Open Scope Z_scope.

(** ** JavaScript string built-ins *)

Module JS.

(** [String.prototype.lastIndexOf] for a one-character search string:
    the index of the last occurrence, or [-1]. *)
Fixpoint lastIndexOf (c : ascii) (s : string) : Z :=
  match s with
  | EmptyString => -1
  | String a r =>
      let k := lastIndexOf c r in
      if 0 <=? k then k + 1
      else if Ascii.eqb a c then 0 else -1
  end.

(** [String.prototype.substring(start, end)]: both indices are clamped to
    [0 .. length] and swapped when [start > end]. *)
Definition clamp (len n : Z) : Z := Z.max 0 (Z.min n len).

Definition substring (from to : Z) (s : string) : string :=
  let len := Z.of_nat (String.length s) in
  let a := clamp len from in
  let b := clamp len to in
  let lo := Z.min a b in
  let hi := Z.max a b in
  String.substring (Z.to_nat lo) (Z.to_nat (hi - lo)) s.

Fixpoint drop (n : nat) (s : string) : string :=
  match n, s with
  | O, _ => s
  | S n', String _ r => drop n' r
  | S _, EmptyString => EmptyString
  end.

(** [String.prototype.replace(pattern, replacement)] with a string pattern:
    only the first occurrence is replaced.  (The replacement strings used by
    the plugin contain no [$] pattern.) *)
Fixpoint replace (pat rep s : string) : string :=
  if String.prefix pat s then rep +:+ drop (String.length pat) s
  else match s with
       | EmptyString => EmptyString
       | String a r => String a (replace pat rep r)
       end.

(** Truthiness of a string value: every string but the empty one. *)
Definition truthy (s : string) : bool := negb (String.eqb s EmptyString).
Global Arguments truthy : simpl never.

Fixpoint countChar (c : ascii) (s : string) : nat :=
  match s with
  | EmptyString => O
  | String a r => (if Ascii.eqb a c then 1 else 0) + countChar c r
  end.

End JS.

(** ** Node's [path] module (POSIX flavour)

    The module is a dependency of the plugin, not part of its source.
    [extname] follows Node's documentation: trailing slashes are ignored, the
    last path component is taken, and the extension runs from the last [.] of
    that component to its end; the result is empty when the component has no
    [.], when its only [.] is its first character, or when it is [..]. *)

Module Path.

Definition slash : ascii := "/"%char.
Definition dot : ascii := "."%char.

Fixpoint dropSlashes (l : list ascii) : list ascii :=
  match l with
  | c :: r => if Ascii.eqb c slash then dropSlashes r else l
  | [] => []
  end.

Fixpoint takeComponent (l : list ascii) : list ascii :=
  match l with
  | c :: r => if Ascii.eqb c slash then [] else c :: takeComponent r
  | [] => []
  end.

(** Splits a reversed component at its first dot: the characters after the
    last dot of the component (reversed), and those before it (reversed). *)
Fixpoint splitDot (l : list ascii) : option (list ascii * list ascii) :=
  match l with
  | [] => None
  | c :: r =>
      if Ascii.eqb c dot then Some ([], r)
      else match splitDot r with
           | Some (ext, before) => Some (c :: ext, before)
           | None => None
           end
  end.

Definition extname (p : string) : string :=
  let component := takeComponent (dropSlashes (List.rev (list_ascii_of_string p))) in
  match splitDot component with
  | None => EmptyString
  | Some (ext, before) =>
      match before, ext with
      | [], _ => EmptyString
      | [c], [] => if Ascii.eqb c dot then EmptyString else String dot EmptyString
      | _, _ => string_of_list_ascii (dot :: List.rev ext)
      end
  end.

End Path.

(** ** [JSON.stringify] on objects whose property values are strings

    Properties are written in insertion order; a property whose value is
    [undefined] is left out.  A string is quoted with the escapes of
    ECMAScript's QuoteJSONString: the quote, the backslash, the five short
    control escapes, and [\u00xx] for the other characters below U+0020. *)

Module JSON.

Definition dquote : ascii := ascii_of_nat 34.
Definition backslash : ascii := ascii_of_nat 92.

Definition hexDigit (n : nat) : ascii :=
  if (n <? 10)%nat then ascii_of_nat (48 + n) else ascii_of_nat (87 + n).

Definition escapeChar (c : ascii) : string :=
  let n := nat_of_ascii c in
  if (n =? 34)%nat then String backslash (String dquote EmptyString)
  else if (n =? 92)%nat then String backslash (String backslash EmptyString)
  else if (n =? 8)%nat then String backslash "b"
  else if (n =? 9)%nat then String backslash "t"
  else if (n =? 10)%nat then String backslash "n"
  else if (n =? 12)%nat then String backslash "f"
  else if (n =? 13)%nat then String backslash "r"
  else if (n <? 32)%nat then
    String backslash
      (String "u" (String "0" (String "0"
        (String (hexDigit (n / 16)) (String (hexDigit (n mod 16)) EmptyString)))))
  else String c EmptyString.

Fixpoint escape (s : string) : string :=
  match s with
  | EmptyString => EmptyString
  | String c r => escapeChar c +:+ escape r
  end.

Definition quote (s : string) : string :=
  String dquote (escape s +:+ String dquote EmptyString).

Definition property (kv : string * string) : string :=
  quote (fst kv) +:+ ":" +:+ quote (snd kv).

(** The properties that are written: those with a defined value. *)
Fixpoint defined (props : list (string * option string)) : list (string * string) :=
  match props with
  | [] => []
  | (k, Some v) :: r => (k, v) :: defined r
  | (_, None) :: r => defined r
  end.

Definition stringify (props : list (string * option string)) : string :=
  "{" +:+ String.concat "," (List.map property (defined props)) +:+ "}".

End JSON.

(** ** Exceptions *)

Inductive Exception :=
| TypeError
| Rejected (reason : string).

Inductive Result (A : Type) :=
| Ok (a : A)
| Throw (e : Exception).

Arguments Ok {A} a.
Arguments Throw {A} e.

Definition bindR {A B} (m : Result A) (k : A -> Result B) : Result B :=
  match m with
  | Ok a => k a
  | Throw e => Throw e
  end.

Declare Scope result_scope.
Delimit Scope result_scope with result.
Notation "x <- m ;; k" := (bindR m (fun x => k))
  (at level 100, m at next level, right associativity) : result_scope.

(** [Array.prototype.filter] and [Array.prototype.map] with a callback that
    may throw: elements are visited from left to right and the first
    exception aborts the call. *)
Fixpoint filterR {A} (p : A -> Result bool) (l : list A) : Result (list A) :=
  match l with
  | [] => Ok []
  | x :: r =>
      (b <- p x ;;
       r' <- filterR p r ;;
       Ok (if b : bool then x :: r' else r'))%result
  end.

Fixpoint mapR {A B} (f : A -> Result B) (l : list A) : Result (list B) :=
  match l with
  | [] => Ok []
  | x :: r =>
      (y <- f x ;;
       r' <- mapR f r ;;
       Ok (y :: r'))%result
  end.

(** [Array.prototype.includes] on an array of strings. *)
Definition includes (l : list string) (x : string) : bool :=
  existsb (String.eqb x) l.

(** The [||] operator on two strings. *)
Definition or_else (a b : string) : string := if JS.truthy a then a else b.

(** ** Data model *)

(** An item of the remote listing. *)
Module Entry.
Record t := mk {
  tag : string;
  id : string;
  name : string;
  path_display : string;
  client_modified : option string
}.
End Entry.

(** What [getData] hands to the builder: the result object of
    [filesListFolder], or the empty array of its [catch] branch. *)
Inductive Data :=
| ListFolderResult (entries : list Entry.t)
| EmptyArray.

(** [data.entries.filter]: on the result object [entries] is the listing; on
    an array it is the built-in method [Array.prototype.entries], a function
    that has no [filter], and the call is a [TypeError]. *)
Definition entriesOf (data : Data) : Result (list Entry.t) :=
  match data with
  | ListFolderResult entries => Ok entries
  | EmptyArray => Throw TypeError
  end.

Module Options.
Record t := mk {
  path : string;
  recursive : bool;
  extensions : list string;
  createFolderNodes : bool
}.
End Options.

(** The options a site passes to the plugin; an absent key is [None]. *)
Module PluginOptions.
Record t := mk {
  path : option string;
  recursive : option bool;
  extensions : option (list string);
  createFolderNodes : option bool
}.
Definition none : t := mk None None None None.
End PluginOptions.

Definition defaultOptions : Options.t :=
  {| Options.path := EmptyString;
     Options.recursive := true;
     Options.extensions := [".jpg"; ".png"; ".md"];
     Options.createFolderNodes := true |}.

(** [{ ...defaultOptions, ...pluginOptions }] *)
Definition mergeOptions (d : Options.t) (p : PluginOptions.t) : Options.t :=
  {| Options.path := default (Options.path d) (PluginOptions.path p);
     Options.recursive := default (Options.recursive d) (PluginOptions.recursive p);
     Options.extensions := default (Options.extensions d) (PluginOptions.extensions p);
     Options.createFolderNodes :=
       default (Options.createFolderNodes d) (PluginOptions.createFolderNodes p) |}.

Inductive NodeType :=
| TYPE_MARKDOWN
| TYPE_IMAGE
| TYPE_FOLDER
| TYPE_DEFAULT.

Definition NodeType_eqb (a b : NodeType) : bool :=
  match a, b with
  | TYPE_MARKDOWN, TYPE_MARKDOWN
  | TYPE_IMAGE, TYPE_IMAGE
  | TYPE_FOLDER, TYPE_FOLDER
  | TYPE_DEFAULT, TYPE_DEFAULT => true
  | _, _ => false
  end.

(** A record handed to Gatsby's [createNode].  File and folder records are
    objects of one shape with some properties absent ([None]): a folder
    record has no [lastModified], a file record no relation lists, and the
    synthetic root folder neither [name] nor [path]. *)
Module Node.
Record internal_t := mkInternal {
  type : NodeType;
  contentDigest : string
}.
Record t := mk {
  id : string;
  parent : string;
  children : list string;
  internal : internal_t;
  name : option string;
  path : option string;
  lastModified : option string;
  dropboxImage___NODE : option (list string);
  dropboxMarkdown___NODE : option (list string);
  localFile___NODE : option string
}.

(** [{ ...n, dropboxImage___NODE: images, dropboxMarkdown___NODE: markdowns }] *)
Definition withRelations (n : t) (images markdowns : list string) : t :=
  mk (id n) (parent n) (children n) (internal n) (name n) (path n)
     (lastModified n) (Some images) (Some markdowns) (localFile___NODE n).

(** [n.localFile___NODE = fileNodeID] *)
Definition withLocalFile (n : t) (fileNodeID : string) : t :=
  mk (id n) (parent n) (children n) (internal n) (name n) (path n)
     (lastModified n) (dropboxImage___NODE n) (dropboxMarkdown___NODE n)
     (Some fileNodeID).

Definition typeOf (n : t) : NodeType := type (internal n).
End Node.

(** ** Entry classifier *)

(** The callbacks of the two [filter] calls. *)
Definition isAllowedFile (options : Options.t) (entry : Entry.t) : bool :=
  String.eqb (Entry.tag entry) "file"
  && includes (Options.extensions options) (Path.extname (Entry.name entry)).

Definition isFolder (entry : Entry.t) : bool :=
  String.eqb (Entry.tag entry) "folder".

Definition extractFiles (data : Data) (options : Options.t) : Result (list Entry.t) :=
  (entries <- entriesOf data ;;
   Ok (List.filter (isAllowedFile options) entries))%result.

Definition extractFolders (data : Data) : Result (list Entry.t) :=
  (entries <- entriesOf data ;;
   Ok (List.filter isFolder entries))%result.

(** The [switch] compares the extension with [.md] and then with the value
    of the expression [.png || .jpg]. *)
Definition getNodeType (file : Entry.t) (options : Options.t) : NodeType :=
  if Options.createFolderNodes options then
    let extension := Path.extname (Entry.path_display file) in
    if String.eqb extension ".md" then TYPE_MARKDOWN
    else if String.eqb extension (or_else ".png" ".jpg") then TYPE_IMAGE
    else TYPE_DEFAULT
  else TYPE_DEFAULT.

(** ** Graph linker *)

(** The body of [getParentFolderName], on the [path] of the record. *)
Definition parentFolderNameOf (path : string) : string :=
  let parentFolderName :=
    JS.replace "/" EmptyString (JS.substring 0 (JS.lastIndexOf "/" path) path) in
  if String.eqb parentFolderName EmptyString then "root" else parentFolderName.

(** Reading [path.substring] of a record without a [path] is a [TypeError]. *)
Definition getParentFolderName (file : Node.t) : Result string :=
  match Node.path file with
  | Some path => Ok (parentFolderNameOf path)
  | None => Throw TypeError
  end.

(** [a === name] for a string [a] and a possibly absent [name]. *)
Definition strictEq (a : string) (name : option string) : bool :=
  match name with
  | Some b => String.eqb a b
  | None => false
  end.

Definition hasType (ty : NodeType) (node : Node.t) : bool :=
  NodeType_eqb (Node.typeOf node) ty.

Definition linkFolder (fileNodes : list Node.t) (folderDatum : Node.t) : Result Node.t :=
  let name := Node.name folderDatum in
  (relatedNodes <-
     filterR (fun file => parentName <- getParentFolderName file ;;
                          Ok (strictEq parentName name)) fileNodes ;;
   let relatedImageNodes := List.filter (hasType TYPE_IMAGE) relatedNodes in
   let relatedMarkdownNodes := List.filter (hasType TYPE_MARKDOWN) relatedNodes in
   let relatedImageNodeIds := List.map Node.id relatedImageNodes in
   let relatedMarkdownIds := List.map Node.id relatedMarkdownNodes in
   Ok (Node.withRelations folderDatum relatedImageNodeIds relatedMarkdownIds))%result.

Definition getLinkedNodes (folderNodes fileNodes : list Node.t) : Result (list Node.t) :=
  (linkedNodes <- mapR (linkFolder fileNodes) folderNodes ;;
   Ok (linkedNodes ++ fileNodes))%result.

(** ** Record builder *)

Definition SOURCE : string := "__SOURCE__".

Definition fileData (file : Entry.t) : list (string * option string) :=
  [ ("name", Some (Entry.name file));
    ("path", Some (Entry.path_display file));
    ("lastModified", Entry.client_modified file) ].

Definition fileNode (options : Options.t) (file : Entry.t) : Node.t :=
  {| Node.id := Entry.id file;
     Node.parent := SOURCE;
     Node.children := [];
     Node.internal :=
       {| Node.type := getNodeType file options;
          Node.contentDigest := JSON.stringify (fileData file) |};
     Node.name := Some (Entry.name file);
     Node.path := Some (Entry.path_display file);
     Node.lastModified := Entry.client_modified file;
     Node.dropboxImage___NODE := None;
     Node.dropboxMarkdown___NODE := None;
     Node.localFile___NODE := None |}.

Definition folderData (folder : Entry.t) : list (string * option string) :=
  [ ("name", Some (Entry.name folder));
    ("path", Some (Entry.path_display folder)) ].

Definition folderNode (folder : Entry.t) : Node.t :=
  {| Node.id := Entry.id folder;
     Node.parent := SOURCE;
     Node.children := [];
     Node.internal :=
       {| Node.type := TYPE_FOLDER;
          Node.contentDigest := JSON.stringify (folderData folder) |};
     Node.name := Some (Entry.name folder);
     Node.path := Some (Entry.path_display folder);
     Node.lastModified := None;
     Node.dropboxImage___NODE := None;
     Node.dropboxMarkdown___NODE := None;
     Node.localFile___NODE := None |}.

(** The extra folder for the home directory of the Dropbox app.  The object
    literal has an [id], a [parent], [children] and [internal], and no
    [name]: [root] occurs only inside the digest. *)
Definition rootFolderNode : Node.t :=
  {| Node.id := "dropboxRoot";
     Node.parent := SOURCE;
     Node.children := [];
     Node.internal :=
       {| Node.type := TYPE_FOLDER;
          Node.contentDigest := JSON.stringify [("name", Some "root")] |};
     Node.name := None;
     Node.path := None;
     Node.lastModified := None;
     Node.dropboxImage___NODE := None;
     Node.dropboxMarkdown___NODE := None;
     Node.localFile___NODE := None |}.

Definition createNodeData (data : Data) (options : Options.t) : Result (list Node.t) :=
  (files <- extractFiles data options ;;
   let fileNodes := List.map (fileNode options) files in
   if Options.createFolderNodes options then
     folders <- extractFolders data ;;
     let folderNodes := List.map folderNode folders ++ [rootFolderNode] in
     getLinkedNodes folderNodes fileNodes
   else Ok fileNodes)%result.

(** ** Collaborators and effects

    The world holds Gatsby's key/value cache and the trace of the calls the
    plugin has made to its collaborators.  An action runs on a world and
    yields a value or an exception, and the world it leaves behind. *)

Module CacheData.
Record t := mk { fileNodeID : string }.
End CacheData.

Inductive Event :=
| GetMetadata (path : string)
| ListFolder (path : string) (recursive : bool)
| GetTemporaryLink (path : option string)
| CreateRemoteFileNode (url ext name : string)
| CacheGet (key : string)
| CacheSet (key : string) (value : CacheData.t)
| TouchNode (nodeId : string)
| CreateNode (node : Node.t)
| ConsoleWarn
| ConsoleLog.

Record World := mkWorld {
  cache : gmap string CacheData.t;
  trace : list Event
}.

Definition Action (A : Type) : Type := World -> Result A * World.

Definition retA {A} (a : A) : Action A := fun w => (Ok a, w).

Definition bindA {A B} (m : Action A) (k : A -> Action B) : Action B :=
  fun w =>
    match m w with
    | (Ok a, w') => k a w'
    | (Throw e, w') => (Throw e, w')
    end.

Declare Scope action_scope.
Delimit Scope action_scope with action.
Notation "x <- m ;; k" := (bindA m (fun x => k))
  (at level 100, m at next level, right associativity) : action_scope.
Notation "m ;; k" := (bindA m (fun _ => k))
  (at level 100, right associativity) : action_scope.

Definition liftR {A} (r : Result A) : Action A := fun w => (r, w).

Definition emit (e : Event) : Action unit :=
  fun w => (Ok tt, {| cache := cache w; trace := trace w ++ [e] |}).

(** [try { body } catch (e) { handler e }]: what the body did before it threw
    stays done. *)
Definition tryCatch {A} (body : Action A) (handler : Exception -> Action A) : Action A :=
  fun w =>
    match body w with
    | (Ok a, w') => (Ok a, w')
    | (Throw e, w') => handler e w'
    end.

(** [cache.get(key)] and [cache.set(key, value)] *)
Definition cacheGet (key : string) : Action (option CacheData.t) :=
  fun w => (Ok (cache w !! key), {| cache := cache w; trace := trace w ++ [CacheGet key] |}).

Definition cacheSet (key : string) (value : CacheData.t) : Action unit :=
  fun w => (Ok tt, {| cache := <[key := value]> (cache w);
                      trace := trace w ++ [CacheSet key value] |}).

(** The Dropbox client: each call resolves or rejects.  [filesGetMetadata]
    resolves to an object of which only the [id] is read, [filesListFolder]
    to an object of which only the [entries] are read, and
    [filesGetTemporaryLink] to an object of which only the [link] is read. *)
Record Dropbox := {
  filesGetMetadata : string -> Result string;
  filesListFolder : string -> bool -> Result (list Entry.t);
  filesGetTemporaryLink : option string -> Result string
}.

Definition truthyId (fileNodeID : option string) : bool :=
  match fileNodeID with
  | Some s => JS.truthy s
  | None => false
  end.

(** [datum.localFile___NODE = fileNodeID] under [if (fileNodeID)]. *)
Definition attach (datum : Node.t) (fileNodeID : option string) : Node.t :=
  match fileNodeID with
  | Some ref => if JS.truthy ref then Node.withLocalFile datum ref else datum
  | None => datum
  end.

Definition isFileType (ty : NodeType) : bool :=
  NodeType_eqb ty TYPE_IMAGE || NodeType_eqb ty TYPE_MARKDOWN || NodeType_eqb ty TYPE_DEFAULT.

Definition cacheKey (id : string) : string := "dropbox-file-" +:+ id.

(** ** Asynchronous callbacks

    An [async] function runs until its next [await] and is resumed later.
    A task is such a function between two resumptions: settled with its
    value, or awaiting, with the segment to run when it is resumed, up to
    the next [await].  A call is made by the segment that reaches it, and
    what it did and how it settled are fixed then; the [await] only puts
    off the code that follows it. *)
#[warnings="-register-all"]
Inductive Task (A : Type) : Type :=
| Settled (a : A)
| Awaiting (resume : World -> Result (Task A) * World).

Arguments Settled {A} a.
Arguments Awaiting {A} resume.

(** Makes a call whose promise is awaited inside a [try]: the rejection, if
    any, is thrown at the [await], when the task is resumed. *)
Definition issue {A} (call : Action A) : Action (Result A) :=
  fun w => let (r, w') := call w in (Ok r, w').

(** [const x = await task; k x] *)
Fixpoint awaitThen {A B} (task : Task A) (k : A -> Action (Task B)) : Action (Task B) :=
  match task with
  | Settled a => k a
  | Awaiting resume =>
      retA (Awaiting (fun w =>
              match resume w with
              | (Ok task', w') => awaitThen task' k w'
              | (Throw e, w') => (Throw e, w')
              end))
  end.

(** Runs a task to its end with nothing in between. *)
Fixpoint runTask {A} (task : Task A) : Action A :=
  match task with
  | Settled a => retA a
  | Awaiting resume =>
      fun w =>
        match resume w with
        | (Ok task', w') => runTask task' w'
        | (Throw e, w') => (Throw e, w')
        end
  end.

Definition uninterrupted {A} (start : Action (Task A)) : Action A :=
  (task <- start ;; runTask task)%action.

(** [Promise.all] over callbacks that return nothing keeps the first
    rejection; the other callbacks still run. *)
Definition orFirst (firstError : option Exception) (e : Exception) : option Exception :=
  match firstError with
  | Some first => Some first
  | None => Some e
  end.

(** Resumes the callback at index [i], if it is awaiting, up to its next
    [await]. *)
Definition resumeAt (i : nat) (pool : list (Task unit)) (firstError : option Exception)
    (w : World) : list (Task unit) * option Exception * World :=
  match pool !! i with
  | Some (Awaiting resume) =>
      match resume w with
      | (Ok task, w') => (<[i := task]> pool, firstError, w')
      | (Throw e, w') => (<[i := Settled tt]> pool, orFirst firstError e, w')
      end
  | _ => (pool, firstError, w)
  end.

Fixpoint runScheduled (schedule : list nat) (pool : list (Task unit))
    (firstError : option Exception) (w : World)
  : list (Task unit) * option Exception * World :=
  match schedule with
  | [] => (pool, firstError, w)
  | i :: rest =>
      let '(pool', firstError', w') := resumeAt i pool firstError w in
      runScheduled rest pool' firstError' w'
  end.

Fixpoint runToEnd (task : Task unit) (firstError : option Exception) (w : World)
  : option Exception * World :=
  match task with
  | Settled _ => (firstError, w)
  | Awaiting resume =>
      match resume w with
      | (Ok task', w') => runToEnd task' firstError w'
      | (Throw e, w') => (orFirst firstError e, w')
      end
  end.

Fixpoint drain (pool : list (Task unit)) (firstError : option Exception) (w : World)
  : option Exception * World :=
  match pool with
  | [] => (firstError, w)
  | task :: rest =>
      let '(firstError', w') := runToEnd task firstError w in
      drain rest firstError' w'
  end.

(** [Promise.all(callbacks)]: every callback is started, in order, and runs
    to its first [await]; the awaiting callbacks are then resumed one
    segment at a time in the order the schedule gives (the order in which
    the awaited promises settle, which the plugin does not control), and
    what is still awaiting when the schedule ends is run to its end. *)
Definition promiseAll (schedule : list nat) (callbacks : list (Action (Task unit)))
  : Action unit :=
  fun w =>
    let '(started, e1, w1) :=
      runScheduled (seq 0 (length callbacks)) (List.map Awaiting callbacks) None w in
    let '(waiting, e2, w2) := runScheduled schedule started e1 w1 in
    let '(firstError, w3) := drain waiting e2 w2 in
    (match firstError with
     | None => Ok tt
     | Some e => Throw e
     end, w3).

Section Plugin.

Variable dbx : Dropbox.

(** [createRemoteFileNode] of gatsby-source-filesystem, given the [url],
    the [ext] and the [name]: it rejects, or resolves to a falsy value
    ([None]) or to a file node, of which only the [id] is read.  The
    [store], [cache], [createNode] and [createNodeId] handed to it are not
    modelled. *)
Variable createRemoteFileNodeImpl : string -> string -> string -> Result (option string).

(** [path.basename(name, ext)] of Node; its value is only passed on. *)
Variable basename : string -> string -> string.

(** *** Dropbox API calls *)

Definition getFolderId (path : string) : Action string :=
  (emit (GetMetadata path) ;; liftR (filesGetMetadata dbx path))%action.

Definition listFiles (path : string) (recursive : bool) : Action (list Entry.t) :=
  (emit (ListFolder path recursive) ;; liftR (filesListFolder dbx path recursive))%action.

Definition getTemporaryUrl (path : option string) : Action string :=
  (emit (GetTemporaryLink path) ;; liftR (filesGetTemporaryLink dbx path))%action.

Definition createRemoteFileNode (url ext name : string) : Action (option string) :=
  (emit (CreateRemoteFileNode url ext name) ;;
   liftR (createRemoteFileNodeImpl url ext name))%action.

Definition touchNode (nodeId : string) : Action unit := emit (TouchNode nodeId).

Definition createNode (node : Node.t) : Action unit := emit (CreateNode node).

(** *** Remote lister *)

Definition getData (options : Options.t) : Action Data :=
  tryCatch
    (folderId <-
       (if negb (String.eqb (Options.path options) EmptyString)
        then getFolderId (Options.path options)
        else retA EmptyString) ;;
     files <- listFiles folderId (Options.recursive options) ;;
     retA (ListFolderResult files))%action
    (fun _ => emit ConsoleWarn ;; retA EmptyArray)%action.

(** *** Payload materializer *)

Definition processRemoteFile (datum : Node.t) : Action Node.t :=
  (fileNodeID <-
     (if isFileType (Node.typeOf datum) then
        let remoteDataCacheKey := cacheKey (Node.id datum) in
        cacheRemoteData <- cacheGet remoteDataCacheKey ;;
        fileNodeID <-
          match cacheRemoteData with
          | Some data =>
              touchNode (CacheData.fileNodeID data) ;;
              retA (Some (CacheData.fileNodeID data))
          | None => retA None
          end ;;
        if negb (truthyId fileNodeID) then
          tryCatch
            (url <- getTemporaryUrl (Node.path datum) ;;
             match Node.name datum with
             | None => liftR (Throw TypeError)
             | Some name =>
                 let ext := Path.extname name in
                 fileNode <- createRemoteFileNode url ext (basename name ext) ;;
                 match fileNode with
                 | Some newId =>
                     cacheSet remoteDataCacheKey (CacheData.mk newId) ;;
                     retA (Some newId)
                 | None => retA fileNodeID
                 end
             end)
            (fun _ => emit ConsoleLog ;; retA fileNodeID)
        else retA fileNodeID
      else retA None) ;;
   retA (match fileNodeID with
         | Some ref => if JS.truthy ref then Node.withLocalFile datum ref else datum
         | None => datum
         end))%action.

(** *** The materializer as an asynchronous function

    [processRemoteFile] cut at its [await]s: the lookup in the cache, the
    link request, the creation of the file node and the write to the cache.
    Run without interruption it is [processRemoteFile]. *)
Definition processRemoteFileTask (datum : Node.t) : Action (Task Node.t) :=
  (if isFileType (Node.typeOf datum) then
     let remoteDataCacheKey := cacheKey (Node.id datum) in
     cacheRemoteData <- cacheGet remoteDataCacheKey ;;
     retA (Awaiting (
       fileNodeID <-
         match cacheRemoteData with
         | Some data =>
             touchNode (CacheData.fileNodeID data) ;;
             retA (Some (CacheData.fileNodeID data))
         | None => retA None
         end ;;
       if negb (truthyId fileNodeID) then
         url <- issue (getTemporaryUrl (Node.path datum)) ;;
         retA (Awaiting (
           match url, Node.name datum with
           | Ok url, Some name =>
               let ext := Path.extname name in
               fileNode <- issue (createRemoteFileNode url ext (basename name ext)) ;;
               retA (Awaiting (
                 match fileNode with
                 | Ok (Some newId) =>
                     cacheSet remoteDataCacheKey (CacheData.mk newId) ;;
                     retA (Awaiting (retA (Settled (attach datum (Some newId)))))
                 | Ok None => retA (Settled (attach datum fileNodeID))
                 | Throw _ =>
                     emit ConsoleLog ;; retA (Settled (attach datum fileNodeID))
                 end))
           | _, _ => emit ConsoleLog ;; retA (Settled (attach datum fileNodeID))
           end))
       else retA (Settled (attach datum fileNodeID))))
   else retA (Settled datum))%action.

(** *** Entry point *)

(** The order in which the awaited promises of a run settle. *)
Variable schedule : list nat.

(** The callback mapped over the built records:
    [async nodeDatum => { const node = await processRemoteFile(..); createNode(node) }] *)
Definition callback (nodeDatum : Node.t) : Action (Task unit) :=
  (task <- processRemoteFileTask nodeDatum ;;
   awaitThen task (fun node =>
     retA (Awaiting (createNode node ;; retA (Settled tt)))))%action.

Definition emitAll (nodeData : list Node.t) : Action unit :=
  promiseAll schedule (List.map callback nodeData).

Definition sourceNodes (pluginOptions : PluginOptions.t) : Action unit :=
  let options := mergeOptions defaultOptions pluginOptions in
  (data <- getData options ;;
   nodeData <- liftR (createNodeData data options) ;;
   emitAll nodeData)%action.

End Plugin.

(** The nodes handed to [createNode], in order. *)
Definition emitted (events : list Event) : list Node.t :=
  flat_map (fun e => match e with CreateNode n => [n] | _ => [] end) events.

(** ** Auxiliary definitions for the statements below *)

(** The membership test of [getLinkedNodes] on a file record that has a
    [path]: its parent folder name is the folder's [name]. *)
Definition relatedTo (name : option string) (file : Node.t) : bool :=
  match Node.path file with
  | Some path => strictEq (parentFolderNameOf path) name
  | None => false
  end.

Definition relatedIds (ty : NodeType) (name : option string) (fileNodes : list Node.t)
  : list string :=
  List.map Node.id (List.filter (hasType ty) (List.filter (relatedTo name) fileNodes)).

(** A folder record after linking. *)
Definition linkedFolder (fileNodes : list Node.t) (folderDatum : Node.t) : Node.t :=
  Node.withRelations folderDatum
    (relatedIds TYPE_IMAGE (Node.name folderDatum) fileNodes)
    (relatedIds TYPE_MARKDOWN (Node.name folderDatum) fileNodes).

Definition inImageList (x : string) (folder : Node.t) : Prop :=
  exists l, Node.dropboxImage___NODE folder = Some l /\ In x l.

Definition inMarkdownList (x : string) (folder : Node.t) : Prop :=
  exists l, Node.dropboxMarkdown___NODE folder = Some l /\ In x l.

Definition inRelationLists (x : string) (folder : Node.t) : Prop :=
  inImageList x folder \/ inMarkdownList x folder.

(** Reads back a quoted JSON string and returns it with the text that follows
    its closing quote; the inverse of [JSON.quote]. *)
Module Unquote.

Definition hexValue (c : ascii) : nat :=
  let n := nat_of_ascii c in
  if (n <? 58)%nat then (n - 48)%nat else (n - 87)%nat.

Definition short (c : ascii) : ascii :=
  let n := nat_of_ascii c in
  if (n =? 98)%nat then ascii_of_nat 8
  else if (n =? 116)%nat then ascii_of_nat 9
  else if (n =? 110)%nat then ascii_of_nat 10
  else if (n =? 102)%nat then ascii_of_nat 12
  else if (n =? 114)%nat then ascii_of_nat 13
  else c.

Definition push (c : ascii) (r : option (string * string)) : option (string * string) :=
  match r with
  | Some (v, rest) => Some (String c v, rest)
  | None => None
  end.

Fixpoint body (s : string) : option (string * string) :=
  match s with
  | EmptyString => None
  | String c r =>
      if Ascii.eqb c JSON.dquote then Some (EmptyString, r)
      else if Ascii.eqb c JSON.backslash then
        match r with
        | String t r1 =>
            if Ascii.eqb t "u" then
              match r1 with
              | String _ (String _ (String h (String l r2))) =>
                  push (ascii_of_nat (16 * hexValue h + hexValue l)) (body r2)
              | _ => None
              end
            else push (short t) (body r1)
        | EmptyString => None
        end
      else push c (body r)
  end.

Definition quoted (s : string) : option (string * string) :=
  match s with
  | String c r => if Ascii.eqb c JSON.dquote then body r else None
  | EmptyString => None
  end.

End Unquote.

(** What follows the [path] property in the digest of a file record. *)
Definition digestTail (lastModified : option string) : string :=
  match lastModified with
  | Some l => "," +:+ JSON.quote "lastModified" +:+ ":" +:+ JSON.quote l +:+ "}"
  | None => "}"
  end.

(** The file records and the folder records [createNodeData] builds from a
    listing, before linking. *)
Definition fileNodesOf (options : Options.t) (entries : list Entry.t) : list Node.t :=
  List.map (fileNode options) (List.filter (isAllowedFile options) entries).

Definition folderNodesOf (entries : list Entry.t) : list Node.t :=
  List.map folderNode (List.filter isFolder entries) ++ [rootFolderNode].

(** The listing step fails: resolving the path rejects, or listing the
    resolved folder does. *)
Definition listingFails (dbx : Dropbox) (options : Options.t) : Prop :=
  (Options.path options <> EmptyString /\
   exists e, filesGetMetadata dbx (Options.path options) = Throw e)
  \/
  (exists folderId e,
      ((Options.path options = EmptyString /\ folderId = EmptyString) \/
       (Options.path options <> EmptyString /\
        filesGetMetadata dbx (Options.path options) = Ok folderId)) /\
      filesListFolder dbx folderId (Options.recursive options) = Throw e).

(** What the [try] block of [processRemoteFile] obtains for a record: the id
    of the file node created from the temporary link, if both calls
    resolve. *)
Definition downloadOutcome (dbx : Dropbox)
    (createRemoteFileNodeImpl : string -> string -> string -> Result (option string))
    (basename : string -> string -> string) (datum : Node.t) : option string :=
  match filesGetTemporaryLink dbx (Node.path datum), Node.name datum with
  | Ok url, Some name =>
      match createRemoteFileNodeImpl url (Path.extname name)
              (basename name (Path.extname name)) with
      | Ok (Some newId) => Some newId
      | _ => None
      end
  | _, _ => None
  end.

(** Obtaining the download URL fails, or materializing the payload does. *)
Definition downloadFails (dbx : Dropbox)
    (createRemoteFileNodeImpl : string -> string -> string -> Result (option string))
    (basename : string -> string -> string) (datum : Node.t) : Prop :=
  (exists e, filesGetTemporaryLink dbx (Node.path datum) = Throw e)
  \/
  (exists url name e,
      filesGetTemporaryLink dbx (Node.path datum) = Ok url /\
      Node.name datum = Some name /\
      createRemoteFileNodeImpl url (Path.extname name)
        (basename name (Path.extname name)) = Throw e).

(** The record [processRemoteFile] returns when the cache holds nothing for
    it. *)
Definition materialized (dbx : Dropbox)
    (createRemoteFileNodeImpl : string -> string -> string -> Result (option string))
    (basename : string -> string -> string) (datum : Node.t) : Node.t :=
  if isFileType (Node.typeOf datum)
  then attach datum (downloadOutcome dbx createRemoteFileNodeImpl basename datum)
  else datum.

Definition carriesPayload (node : Node.t) : bool :=
  match Node.localFile___NODE node with
  | Some _ => true
  | None => false
  end.

(** What a task that is run from any world on will still hand to
    [createNode], whatever else runs in between; [depth] bounds the number
    of resumptions left. *)
Fixpoint willEmit (depth : nat) (pending : list Node.t) (task : Task unit) : Prop :=
  match task with
  | Settled _ => pending = []
  | Awaiting resume =>
      match depth with
      | O => False
      | S depth' =>
          forall w, exists task' w' now later,
            resume w = (Ok task', w') /\
            emitted (trace w') = emitted (trace w) ++ now /\
            pending = now ++ later /\
            willEmit depth' later task'
      end
  end.

Definition awaits (pending : list Node.t) (task : Task unit) : Prop :=
  exists depth, willEmit depth pending task.

(** The record a callback hands to [createNode], given what [cache.get]
    resolved to when the callback was started. *)
Definition eventual (dbx : Dropbox)
    (createRemoteFileNodeImpl : string -> string -> string -> Result (option string))
    (basename : string -> string -> string)
    (cacheRemoteData : option CacheData.t) (datum : Node.t) : Node.t :=
  if isFileType (Node.typeOf datum) then
    let fileNodeID := option_map CacheData.fileNodeID cacheRemoteData in
    if truthyId fileNodeID then attach datum fileNodeID
    else match downloadOutcome dbx createRemoteFileNodeImpl basename datum with
         | Some newId => attach datum (Some newId)
         | None => attach datum fileNodeID
         end
  else datum.

(** The cache holds no truthy file-node id for the record: nothing, or an
    entry whose id is falsy. *)
Definition coldFor (cache : gmap string CacheData.t) (datum : Node.t) : Prop :=
  forall data, cache !! cacheKey (Node.id datum) = Some data ->
               JS.truthy (CacheData.fileNodeID data) = false.

(** The listing step resolves to [entries]: the path, unless empty, is
    resolved to a folder id, and listing that id resolves to them. *)
Definition listingResolves (dbx : Dropbox) (options : Options.t)
    (entries : list Entry.t) : Prop :=
  exists folderId,
    ((Options.path options = EmptyString /\ folderId = EmptyString) \/
     (Options.path options <> EmptyString /\
      filesGetMetadata dbx (Options.path options) = Ok folderId)) /\
    filesListFolder dbx folderId (Options.recursive options) = Ok entries.

(** ** Sample listings *)

Module Sample.

Definition a_md : Entry.t := Entry.mk "file" "1" "a.md" "/docs/a.md" None.
Definition docs : Entry.t := Entry.mk "folder" "2" "docs" "/docs" None.
Definition b_png : Entry.t := Entry.mk "file" "3" "b.png" "/docs/b.png" None.
Definition c_jpg : Entry.t := Entry.mk "file" "4" "c.jpg" "/docs/c.jpg" None.

Definition folderNodes : list Node.t := [folderNode docs; rootFolderNode].
Definition fileNodes : list Node.t :=
  [fileNode defaultOptions a_md; fileNode defaultOptions b_png; fileNode defaultOptions c_jpg].
Definition linked : list Node.t :=
  List.map (linkedFolder fileNodes) folderNodes ++ fileNodes.

(** Two folders that share the name [docs] at different depths. *)
Definition docs_nested : Entry.t := Entry.mk "folder" "5" "docs" "/archive/docs" None.
Definition sameNameFolders : list Node.t := [folderNode docs; folderNode docs_nested].

(** A file two directory levels down, and the folders around it. *)
Definition deep_md : Entry.t := Entry.mk "file" "6" "c.md" "/a/b/c.md" None.
Definition folder_a : Entry.t := Entry.mk "folder" "7" "a" "/a" None.
Definition folder_b : Entry.t := Entry.mk "folder" "8" "b" "/a/b" None.
Definition deepFolders : list Node.t :=
  [folderNode folder_a; folderNode folder_b; rootFolderNode].
Definition deepFiles : list Node.t := [fileNode defaultOptions deep_md].

(** A root-level file of an extension that is neither markdown nor image,
    next to a folder that is really named [root]. *)
Definition notes_txt : Entry.t := Entry.mk "file" "9" "notes.txt" "/notes.txt" None.
Definition root_dir : Entry.t := Entry.mk "folder" "10" "root" "/root" None.
Definition top_md : Entry.t := Entry.mk "file" "11" "top.md" "/top.md" None.
Definition txtOptions : Options.t :=
  {| Options.path := EmptyString;
     Options.recursive := true;
     Options.extensions := [".txt"; ".md"];
     Options.createFolderNodes := true |}.

(** Three collaborators: a client whose listing rejects, one that serves
    the three files of [fileNodes] but has no link for [/docs/b.png], and a
    file-node factory that names the node after its URL. *)
Definition failingDbx : Dropbox :=
  {| filesGetMetadata := fun _ => Throw (Rejected "path/not_found");
     filesListFolder := fun _ _ => Throw (Rejected "network");
     filesGetTemporaryLink := fun _ => Throw (Rejected "network") |}.

Definition servingDbx : Dropbox :=
  {| filesGetMetadata := fun _ => Ok "id:home";
     filesListFolder := fun _ _ => Ok [a_md; docs; b_png; c_jpg];
     filesGetTemporaryLink :=
       fun path =>
         match path with
         | Some p => if String.eqb p "/docs/b.png" then Throw (Rejected "network")
                     else Ok ("https://dl.example" +:+ p)
         | None => Throw (Rejected "malformed_path")
         end |}.

Definition createImpl (url ext name : string) : Result (option string) :=
  Ok (Some ("file:" +:+ url)).

Definition basename (name ext : string) : string :=
  JS.substring 0 (Z.of_nat (String.length name) - Z.of_nat (String.length ext)) name.

Definition emptyWorld : World := {| cache := ∅; trace := [] |}.

Definition warmWorld : World :=
  {| cache := {[ cacheKey "1" := CacheData.mk "file:1" ]}; trace := [] |}.

End Sample.

(** ** Further auxiliary definitions *)

(** A record as [processRemoteFile] may return it: the record it was given,
    or that record with a truthy payload reference attached. *)
Definition sameButPayload (datum result : Node.t) : Prop :=
  result = datum \/
  exists ref, JS.truthy ref = true /\ result = Node.withLocalFile datum ref.

(** The ids of the records [createNodeData] builds from a listing: the listed
    folders, the synthetic root, then the allowed files. *)
Definition builtIds (options : Options.t) (entries : list Entry.t) : list string :=
  (if Options.createFolderNodes options
   then List.map Entry.id (List.filter isFolder entries) ++ ["dropboxRoot"]
   else [])
  ++ List.map Entry.id (List.filter (isAllowedFile options) entries).

Module Fixture.

Definition photosOptions : Options.t :=
  {| Options.path := "/photos";
     Options.recursive := false;
     Options.extensions := [".jpg"; ".png"; ".md"];
     Options.createFolderNodes := true |}.

Definition flatOptions : Options.t :=
  {| Options.path := EmptyString;
     Options.recursive := true;
     Options.extensions := [".jpg"; ".png"; ".md"];
     Options.createFolderNodes := false |}.

(** A file-node factory that resolves to nothing. *)
Definition createNothing (url ext name : string) : Result (option string) := Ok None.

Definition listing : list Entry.t :=
  [Sample.a_md; Sample.docs; Sample.b_png; Sample.c_jpg].

(** A second file entry under the id of [a.md]. *)
Definition twin_md : Entry.t := Entry.mk "file" "1" "z.md" "/docs/z.md" None.

(** The schedule that resumes every callback once per round, in order. *)
Definition roundRobin (callbacks rounds : nat) : list nat :=
  List.concat (List.repeat (seq 0 callbacks) rounds).

End Fixture.

(** * Properties *)

Example lastIndexOf_nested : JS.lastIndexOf "/" "/a/b/c.md" = 4.
Proof. reflexivity. Qed.

Example extname_md : Path.extname "/docs/a.md" = ".md".
Proof. reflexivity. Qed.

Example extname_hidden : Path.extname "/docs/.profile" = EmptyString.
Proof. reflexivity. Qed.

Example extname_dotdot : Path.extname "/docs/.." = EmptyString.
Proof. reflexivity. Qed.

Example extname_trailing : Path.extname "/docs/a.tar.gz/" = ".gz".
Proof. reflexivity. Qed.

Example extname_none : Path.extname "/docs/README" = EmptyString.
Proof. reflexivity. Qed.

Example extname_lone_dot : Path.extname "/docs/a." = ".".
Proof. reflexivity. Qed.

Example parent_of_nested : parentFolderNameOf "/a/b/c.md" = "a/b".
Proof. reflexivity. Qed.

Example parent_of_single : parentFolderNameOf "/docs/a.md" = "docs".
Proof. reflexivity. Qed.

Example parent_of_root_level : parentFolderNameOf "/a.md" = "root".
Proof. reflexivity. Qed.

Example digest_of_root :
  Node.contentDigest (Node.internal rootFolderNode) =
  "{" +:+ JSON.quote "name" +:+ ":" +:+ JSON.quote "root" +:+ "}".
Proof. reflexivity. Qed.

Example quote_escapes :
  JSON.quote (String JSON.dquote (String "010" "a")) =
  String JSON.dquote
    (String JSON.backslash (String JSON.dquote
      (String JSON.backslash (String "n" (String "a" (String JSON.dquote EmptyString)))))).
Proof. reflexivity. Qed.

(** ** Strings *)

Lemma app_cons (a : ascii) (s t : string) : String a s +:+ t = String a (s +:+ t).
Proof. reflexivity. Qed.

Lemma app_empty_l (s : string) : EmptyString +:+ s = s.
Proof. reflexivity. Qed.

Lemma app_assoc_str (s t u : string) : (s +:+ t) +:+ u = s +:+ (t +:+ u).
Proof.
  induction s as [|a s IH].
  - reflexivity.
  - rewrite !app_cons. now rewrite IH.
Qed.

Lemma app_prefix_inv (p a b : string) : p +:+ a = p +:+ b -> a = b.
Proof. apply (inj (String.app p)). Qed.

(** ** [JSON.stringify] is injective on the data objects of the builder *)

Lemma unquote_escapeChar (c : ascii) (rest : string) :
  Unquote.body (JSON.escapeChar c +:+ rest) = Unquote.push c (Unquote.body rest).
Proof.
  destruct c as [[] [] [] [] [] [] [] []]; reflexivity.
Qed.

Lemma unquote_escape (s rest : string) :
  Unquote.body (JSON.escape s +:+ String JSON.dquote rest) = Some (s, rest).
Proof.
  induction s as [|c s IH].
  - reflexivity.
  - cbn [JSON.escape]. rewrite app_assoc_str, unquote_escapeChar, IH. reflexivity.
Qed.

Lemma unquote_quote (s rest : string) :
  Unquote.quoted (JSON.quote s +:+ rest) = Some (s, rest).
Proof.
  unfold JSON.quote. rewrite app_cons, app_assoc_str, app_cons, app_empty_l.
  cbn [Unquote.quoted]. replace (Ascii.eqb JSON.dquote JSON.dquote) with true by reflexivity.
  apply unquote_escape.
Qed.

Lemma quote_app_inj (s1 s2 r1 r2 : string) :
  JSON.quote s1 +:+ r1 = JSON.quote s2 +:+ r2 -> s1 = s2 /\ r1 = r2.
Proof.
  intros H. apply (f_equal Unquote.quoted) in H.
  rewrite !unquote_quote in H. now inversion H.
Qed.

Lemma fileData_digest (file : Entry.t) :
  JSON.stringify (fileData file) =
  "{" +:+ JSON.quote "name" +:+ ":" +:+ JSON.quote (Entry.name file) +:+
  "," +:+ JSON.quote "path" +:+ ":" +:+ JSON.quote (Entry.path_display file) +:+
  digestTail (Entry.client_modified file).
Proof.
  unfold JSON.stringify, fileData, digestTail, JSON.property.
  destruct (Entry.client_modified file) as [l|];
    cbn [JSON.defined List.map String.concat fst snd];
    rewrite ?app_assoc_str; reflexivity.
Qed.

Lemma digestTail_inj (l1 l2 : option string) :
  digestTail l1 = digestTail l2 -> l1 = l2.
Proof.
  destruct l1 as [a|], l2 as [b|]; unfold digestTail; intros H.
  - do 3 apply app_prefix_inv in H.
    apply quote_app_inj in H as [-> _]. reflexivity.
  - discriminate H.
  - discriminate H.
  - reflexivity.
Qed.

Lemma fileData_digest_inj (f1 f2 : Entry.t) :
  JSON.stringify (fileData f1) = JSON.stringify (fileData f2) ->
  Entry.name f1 = Entry.name f2 /\
  Entry.path_display f1 = Entry.path_display f2 /\
  Entry.client_modified f1 = Entry.client_modified f2.
Proof.
  rewrite !fileData_digest. intros H.
  do 3 apply app_prefix_inv in H.
  apply quote_app_inj in H as [Hn H].
  do 3 apply app_prefix_inv in H.
  apply quote_app_inj in H as [Hp H].
  apply digestTail_inj in H. auto.
Qed.

(** C5: the [contentDigest] of the records built from two file entries is the
    same exactly when the entries agree on [name], [path_display] and
    [client_modified] (the record's [name], [path] and [lastModified]);
    neither the [id], the tag, the options nor a payload reference or
    relation lists attached later enter it. *)
Theorem contentDigest_iff_semantic_fields :
  forall (options1 options2 : Options.t) (file1 file2 : Entry.t),
    (Node.contentDigest (Node.internal (fileNode options1 file1)) =
     Node.contentDigest (Node.internal (fileNode options2 file2))
     <->
     Node.name (fileNode options1 file1) = Node.name (fileNode options2 file2) /\
     Node.path (fileNode options1 file1) = Node.path (fileNode options2 file2) /\
     Node.lastModified (fileNode options1 file1) =
       Node.lastModified (fileNode options2 file2))
    /\
    (forall ref images markdowns,
        Node.contentDigest
          (Node.internal
             (Node.withLocalFile
                (Node.withRelations (fileNode options1 file1) images markdowns) ref)) =
        Node.contentDigest (Node.internal (fileNode options1 file1))).
Proof.
  intros options1 options2 file1 file2. split; [split|].
  - cbn. intros H. apply fileData_digest_inj in H as (Hn & Hp & Hl).
    now rewrite Hn, Hp, Hl.
  - cbn. intros (Hn & Hp & Hl).
    rewrite !fileData_digest. congruence.
  - reflexivity.
Qed.

(** ** The linker returns, and what it returns *)

Lemma NodeType_eqb_eq (a b : NodeType) : NodeType_eqb a b = true <-> a = b.
Proof. destruct a, b; cbn; split; congruence. Qed.

Lemma filterR_Ok_inv {A} (p : A -> Result bool) (l l' : list A) :
  filterR p l = Ok l' ->
  l' = List.filter (fun x => match p x with Ok b => b | Throw _ => false end) l.
Proof.
  revert l'. induction l as [|x l IH]; cbn; intros l' H.
  - now inversion H.
  - destruct (p x) as [b|e]; cbn in H; [|discriminate].
    destruct (filterR p l) as [r|e]; cbn in H; [|discriminate].
    inversion H; subst. rewrite (IH r eq_refl). now destruct b.
Qed.

Lemma filterR_total {A} (p : A -> Result bool) (q : A -> bool) (l : list A) :
  Forall (fun x => p x = Ok (q x)) l -> filterR p l = Ok (List.filter q l).
Proof.
  induction 1 as [|x l Hx _ IH]; cbn.
  - reflexivity.
  - rewrite Hx. cbn. rewrite IH. cbn. now destruct (q x).
Qed.

Lemma mapR_Ok_inv {A B} (f : A -> Result B) (g : A -> B) (l : list A) (l' : list B) :
  (forall x y, f x = Ok y -> y = g x) ->
  mapR f l = Ok l' -> l' = List.map g l.
Proof.
  intros Hfg. revert l'. induction l as [|x l IH]; cbn; intros l' H.
  - now inversion H.
  - destruct (f x) as [y|e] eqn:Hx; cbn in H; [|discriminate].
    destruct (mapR f l) as [r|e]; cbn in H; [|discriminate].
    inversion H; subst. now rewrite (Hfg x y Hx), (IH r eq_refl).
Qed.

Lemma mapR_total {A B} (f : A -> Result B) (g : A -> B) (l : list A) :
  (forall x, f x = Ok (g x)) -> mapR f l = Ok (List.map g l).
Proof.
  intros Hfg. induction l as [|x l IH]; cbn.
  - reflexivity.
  - now rewrite Hfg, IH.
Qed.

Lemma related_callback (name : option string) (file : Node.t) :
  match (parentName <- getParentFolderName file ;; Ok (strictEq parentName name))%result with
  | Ok b => b
  | Throw _ => false
  end = relatedTo name file.
Proof.
  unfold getParentFolderName, relatedTo. now destruct (Node.path file).
Qed.

Lemma linkFolder_Ok_inv (fileNodes : list Node.t) (folderDatum folder : Node.t) :
  linkFolder fileNodes folderDatum = Ok folder ->
  folder = linkedFolder fileNodes folderDatum.
Proof.
  unfold linkFolder. intros H.
  destruct (filterR _ fileNodes) as [related|e] eqn:Hf; cbn in H; [|discriminate].
  apply filterR_Ok_inv in Hf.
  rewrite (filter_ext _ _ (related_callback (Node.name folderDatum))) in Hf.
  inversion H; subst. reflexivity.
Qed.

Lemma linkFolder_total (fileNodes : list Node.t) (folderDatum : Node.t) :
  Forall (fun file => Node.path file <> None) fileNodes ->
  linkFolder fileNodes folderDatum = Ok (linkedFolder fileNodes folderDatum).
Proof.
  intros Hp. unfold linkFolder.
  rewrite (filterR_total _ (relatedTo (Node.name folderDatum))).
  - reflexivity.
  - eapply Forall_impl; [exact Hp|]. intros file Hfile. cbv beta in Hfile.
    unfold getParentFolderName, relatedTo.
    destruct (Node.path file); [reflexivity|congruence].
Qed.

Lemma getLinkedNodes_Ok_inv (folderNodes fileNodes linked : list Node.t) :
  getLinkedNodes folderNodes fileNodes = Ok linked ->
  linked = List.map (linkedFolder fileNodes) folderNodes ++ fileNodes.
Proof.
  unfold getLinkedNodes. intros H.
  destruct (mapR _ folderNodes) as [l|e] eqn:Hm; cbn in H; [|discriminate].
  apply (mapR_Ok_inv _ (linkedFolder fileNodes)) in Hm.
  - inversion H; subst. reflexivity.
  - intros x y. apply linkFolder_Ok_inv.
Qed.

Lemma getLinkedNodes_total (folderNodes fileNodes : list Node.t) :
  Forall (fun file => Node.path file <> None) fileNodes ->
  getLinkedNodes folderNodes fileNodes =
  Ok (List.map (linkedFolder fileNodes) folderNodes ++ fileNodes).
Proof.
  intros Hp. unfold getLinkedNodes.
  rewrite (mapR_total _ (linkedFolder fileNodes)).
  - reflexivity.
  - intros x. now apply linkFolder_total.
Qed.

(** The folder records are the first [length folderNodes] elements of the
    linker's result, each the folder it was given with its two lists set. *)
Lemma linked_folder_at (folderNodes fileNodes linked : list Node.t) (i : nat) (folder : Node.t) :
  getLinkedNodes folderNodes fileNodes = Ok linked ->
  (i < length folderNodes)%nat ->
  nth_error linked i = Some folder ->
  exists folderDatum,
    nth_error folderNodes i = Some folderDatum /\
    folder = linkedFolder fileNodes folderDatum.
Proof.
  intros H Hi Hn. apply getLinkedNodes_Ok_inv in H. subst linked.
  rewrite nth_error_app1 in Hn by now rewrite length_map.
  rewrite nth_error_map in Hn.
  destruct (nth_error folderNodes i) as [d|]; cbn in Hn; [|discriminate].
  exists d. split; congruence.
Qed.

Lemma In_relatedIds (ty : NodeType) (name : option string) (fileNodes : list Node.t) (x : string) :
  In x (relatedIds ty name fileNodes) <->
  exists file, In file fileNodes /\ Node.id file = x /\
               relatedTo name file = true /\ Node.typeOf file = ty.
Proof.
  unfold relatedIds. rewrite in_map_iff. split.
  - intros (file & Hid & Hin). apply filter_In in Hin as [Hin Hty].
    apply filter_In in Hin as [Hin Hrel]. apply NodeType_eqb_eq in Hty.
    exists file. auto.
  - intros (file & Hin & Hid & Hrel & Hty). exists file. split; [exact Hid|].
    apply filter_In. split; [|now apply NodeType_eqb_eq].
    apply filter_In. auto.
Qed.

Lemma inImageList_linked (x : string) (fileNodes : list Node.t) (folderDatum : Node.t) :
  inImageList x (linkedFolder fileNodes folderDatum) <->
  In x (relatedIds TYPE_IMAGE (Node.name folderDatum) fileNodes).
Proof.
  unfold inImageList, linkedFolder. cbn. split.
  - intros (l & Hl & Hin). now inversion Hl; subst.
  - intros Hin. eauto.
Qed.

Lemma inMarkdownList_linked (x : string) (fileNodes : list Node.t) (folderDatum : Node.t) :
  inMarkdownList x (linkedFolder fileNodes folderDatum) <->
  In x (relatedIds TYPE_MARKDOWN (Node.name folderDatum) fileNodes).
Proof.
  unfold inMarkdownList, linkedFolder. cbn. split.
  - intros (l & Hl & Hin). now inversion Hl; subst.
  - intros Hin. eauto.
Qed.

Lemma same_id_same_node (nodes : list Node.t) (a b : Node.t) :
  List.NoDup (List.map Node.id nodes) ->
  In a nodes -> In b nodes -> Node.id a = Node.id b -> a = b.
Proof.
  induction nodes as [|n nodes IH]; cbn; intros Hnd Ha Hb Hid; [contradiction|].
  inversion Hnd as [|? ? Hnotin Hnd']; subst.
  destruct Ha as [->|Ha], Hb as [->|Hb].
  - reflexivity.
  - exfalso. apply Hnotin. rewrite Hid. now apply in_map.
  - exfalso. apply Hnotin. rewrite <- Hid. now apply in_map.
  - now apply IH.
Qed.

(** ** Parent folder names *)

Lemma substring_nonpositive (k : Z) (s : string) :
  k <= 0 -> JS.substring 0 k s = EmptyString.
Proof.
  intros Hk. unfold JS.substring, JS.clamp.
  assert (Hlen : 0 <= Z.of_nat (String.length s)) by lia.
  replace (Z.max 0 (Z.min 0 (Z.of_nat (String.length s)))) with 0 by lia.
  replace (Z.max 0 (Z.min k (Z.of_nat (String.length s)))) with 0 by lia.
  cbn. now destruct s.
Qed.

Lemma parentFolderNameOf_root (path : string) :
  JS.lastIndexOf "/" path <= 0 -> parentFolderNameOf path = "root".
Proof.
  intros Hk. unfold parentFolderNameOf. now rewrite substring_nonpositive.
Qed.

Lemma prefix_empty (s : string) : String.prefix EmptyString s = true.
Proof. now destruct s. Qed.

Lemma countChar_replace_slash (s : string) :
  JS.countChar "/" (JS.replace "/" EmptyString s) = pred (JS.countChar "/" s).
Proof.
  induction s as [|a s IH].
  - reflexivity.
  - cbn [JS.replace String.prefix]. destruct (ascii_dec "/" a) as [<-|Hne].
    + rewrite prefix_empty. reflexivity.
    + cbn [JS.countChar]. rewrite IH.
      destruct (Ascii.eqb a "/") eqn:Ha.
      * apply Ascii.eqb_eq in Ha. congruence.
      * reflexivity.
Qed.

Lemma nested_parent_has_slash (path : string) :
  (2 <= JS.countChar "/" (JS.substring 0 (JS.lastIndexOf "/" path) path))%nat ->
  (1 <= JS.countChar "/" (parentFolderNameOf path))%nat.
Proof.
  intros H. unfold parentFolderNameOf.
  pose proof (countChar_replace_slash
                (JS.substring 0 (JS.lastIndexOf "/" path) path)) as Hc.
  destruct (JS.replace "/" EmptyString _) as [|a r] eqn:Hr.
  - cbn in Hc. lia.
  - change (String.eqb (String a r) EmptyString) with false. cbv iota. lia.
Qed.

Lemma relatedTo_iff (name : option string) (file : Node.t) :
  relatedTo name file = true <->
  exists n, getParentFolderName file = Ok n /\ name = Some n.
Proof.
  unfold relatedTo, getParentFolderName, strictEq. split.
  - destruct (Node.path file) as [p|]; [|discriminate].
    destruct name as [b|]; [|discriminate].
    intros H. apply String.eqb_eq in H. subst. eauto.
  - intros (n & Hn & ->). destruct (Node.path file); [|discriminate].
    inversion Hn. apply String.eqb_refl.
Qed.

(** ** Relation lists *)

Lemma sample_linked : getLinkedNodes Sample.folderNodes Sample.fileNodes = Ok Sample.linked.
Proof. reflexivity. Qed.

(** C8: the image list of a linked folder record holds only ids of file
    records of type Image, and its markdown list only ids of file records of
    type Markdown; with ids unique within the run, the id of no record of
    type Default or Folder is in either list. *)
Theorem relation_lists_only_image_and_markdown :
  forall (folderNodes fileNodes linked : list Node.t) (i : nat) (folder : Node.t),
    getLinkedNodes folderNodes fileNodes = Ok linked ->
    (i < length folderNodes)%nat ->
    nth_error linked i = Some folder ->
    (forall x, inImageList x folder ->
       exists file, In file fileNodes /\ Node.id file = x /\
                    Node.typeOf file = TYPE_IMAGE) /\
    (forall x, inMarkdownList x folder ->
       exists file, In file fileNodes /\ Node.id file = x /\
                    Node.typeOf file = TYPE_MARKDOWN) /\
    (List.NoDup (List.map Node.id linked) ->
     forall node, In node linked ->
       Node.typeOf node = TYPE_DEFAULT \/ Node.typeOf node = TYPE_FOLDER ->
       ~ inRelationLists (Node.id node) folder).
Proof.
  intros folderNodes fileNodes linked i folder Hl Hi Hn.
  destruct (linked_folder_at _ _ _ _ _ Hl Hi Hn) as (d & _ & ->).
  assert (Himg : forall x, inImageList x (linkedFolder fileNodes d) ->
            exists file, In file fileNodes /\ Node.id file = x /\
                         Node.typeOf file = TYPE_IMAGE).
  { intros x Hx. apply inImageList_linked, In_relatedIds in Hx.
    destruct Hx as (file & Hin & Hid & _ & Hty). eauto. }
  assert (Hmd : forall x, inMarkdownList x (linkedFolder fileNodes d) ->
            exists file, In file fileNodes /\ Node.id file = x /\
                         Node.typeOf file = TYPE_MARKDOWN).
  { intros x Hx. apply inMarkdownList_linked, In_relatedIds in Hx.
    destruct Hx as (file & Hin & Hid & _ & Hty). eauto. }
  split; [exact Himg|]. split; [exact Hmd|].
  intros Hnd node Hnode Hty Hrel.
  apply getLinkedNodes_Ok_inv in Hl.
  assert (Hfile : exists file, In file fileNodes /\ Node.id file = Node.id node /\
                               (Node.typeOf file = TYPE_IMAGE \/
                                Node.typeOf file = TYPE_MARKDOWN)).
  { destruct Hrel as [Hx|Hx]; [apply Himg in Hx|apply Hmd in Hx];
      destruct Hx as (file & Hin & Hid & Hft); eauto. }
  destruct Hfile as (file & Hin & Hid & Hft).
  assert (Hsame : file = node).
  { apply (same_id_same_node linked); auto.
    subst linked. apply in_or_app. now right. }
  subst node. destruct Hty as [Hty|Hty], Hft as [Hft|Hft]; congruence.
Qed.

Lemma relation_lists_only_image_and_markdown_witness :
  (forall x, inImageList x (linkedFolder Sample.fileNodes (folderNode Sample.docs)) ->
     exists file, In file Sample.fileNodes /\ Node.id file = x /\
                  Node.typeOf file = TYPE_IMAGE) /\
  (forall x, inMarkdownList x (linkedFolder Sample.fileNodes (folderNode Sample.docs)) ->
     exists file, In file Sample.fileNodes /\ Node.id file = x /\
                  Node.typeOf file = TYPE_MARKDOWN) /\
  (forall node, In node Sample.linked ->
     Node.typeOf node = TYPE_DEFAULT \/ Node.typeOf node = TYPE_FOLDER ->
     ~ inRelationLists (Node.id node)
         (linkedFolder Sample.fileNodes (folderNode Sample.docs))).
Proof.
  destruct (relation_lists_only_image_and_markdown
              Sample.folderNodes Sample.fileNodes Sample.linked 0%nat
              (linkedFolder Sample.fileNodes (folderNode Sample.docs)))
    as (Himg & Hmd & Hrest).
  - reflexivity.
  - cbn. lia.
  - reflexivity.
  - split; [exact Himg|]. split; [exact Hmd|].
    apply Hrest. repeat constructor; cbn; intuition discriminate.
Defined.

Lemma nth_error_name (folderNodes : list Node.t) (i : nat) (d : Node.t) :
  nth_error folderNodes i = Some d ->
  nth_error (List.map Node.name folderNodes) i = Some (Node.name d).
Proof. intros H. now rewrite nth_error_map, H. Qed.

(** C4, as stated, fails: a file under [/docs] is listed by both folders
    named [docs]. *)
Lemma file_listed_by_two_folders_of_one_name :
  exists linked first second,
    getLinkedNodes Sample.sameNameFolders Sample.fileNodes = Ok linked /\
    nth_error linked 0 = Some first /\
    nth_error linked 1 = Some second /\
    Node.id first <> Node.id second /\
    inRelationLists (Node.id (fileNode defaultOptions Sample.a_md)) first /\
    inRelationLists (Node.id (fileNode defaultOptions Sample.a_md)) second.
Proof.
  eexists _, _, _. split; [reflexivity|].
  split; [reflexivity|]. split; [reflexivity|].
  split; [discriminate|].
  split; right; eexists; (split; [reflexivity|]); vm_compute; auto.
Qed.

(** C4, amended: the id of a file record is in the relation lists of a
    linked folder record exactly when the folder's [name] is the file's
    parent folder name and the file is of type Image or Markdown, whether
    or not folders share a name (file ids being unique); hence, when the
    folders given to the linker have pairwise distinct names, in those of
    at most one folder record. *)
Theorem file_in_at_most_one_folder_of_distinct_names :
  forall (folderNodes fileNodes linked : list Node.t),
    getLinkedNodes folderNodes fileNodes = Ok linked ->
    List.NoDup (List.map Node.id fileNodes) ->
    forall file, In file fileNodes ->
      (forall i folder,
          (i < length folderNodes)%nat -> nth_error linked i = Some folder ->
          (inRelationLists (Node.id file) folder <->
           (exists n, getParentFolderName file = Ok n /\ Node.name folder = Some n) /\
           (Node.typeOf file = TYPE_IMAGE \/ Node.typeOf file = TYPE_MARKDOWN))) /\
      (List.NoDup (List.map Node.name folderNodes) ->
       forall i j first second,
          (i < length folderNodes)%nat -> (j < length folderNodes)%nat ->
          nth_error linked i = Some first -> nth_error linked j = Some second ->
          inRelationLists (Node.id file) first ->
          inRelationLists (Node.id file) second ->
          i = j).
Proof.
  intros folderNodes fileNodes linked Hl Hids file Hfile.
  assert (Hchar : forall i folder,
            (i < length folderNodes)%nat -> nth_error linked i = Some folder ->
            (inRelationLists (Node.id file) folder <->
             (exists n, getParentFolderName file = Ok n /\ Node.name folder = Some n) /\
             (Node.typeOf file = TYPE_IMAGE \/ Node.typeOf file = TYPE_MARKDOWN))).
  { intros i folder Hi Hn.
    destruct (linked_folder_at _ _ _ _ _ Hl Hi Hn) as (d & _ & ->).
    change (Node.name (linkedFolder fileNodes d)) with (Node.name d).
    rewrite <- relatedTo_iff. unfold inRelationLists.
    rewrite inImageList_linked, inMarkdownList_linked, !In_relatedIds. split.
    - intros [(g & Hg & Hid & Hrel & Hty)|(g & Hg & Hid & Hrel & Hty)];
        assert (g = file) by (now apply (same_id_same_node fileNodes));
        subst g; auto.
    - intros [Hrel [Hty|Hty]]; [left|right]; exists file; auto. }
  split; [exact Hchar|].
  intros Hnames i j first second Hi Hj Hni Hnj Hin1 Hin2.
  apply (Hchar i first Hi Hni) in Hin1 as [(n & Hn & Hname1) _].
  apply (Hchar j second Hj Hnj) in Hin2 as [(m & Hm & Hname2) _].
  assert (m = n) by congruence. subst m.
  destruct (linked_folder_at _ _ _ _ _ Hl Hi Hni) as (d1 & Hd1 & ->).
  destruct (linked_folder_at _ _ _ _ _ Hl Hj Hnj) as (d2 & Hd2 & ->).
  change (Node.name d1 = Some n) in Hname1.
  change (Node.name d2 = Some n) in Hname2.
  apply (proj1 (NoDup_nth_error (List.map Node.name folderNodes)) Hnames).
  - now rewrite length_map.
  - rewrite (nth_error_name _ _ _ Hd1).
    rewrite (nth_error_name _ _ _ Hd2). congruence.
Qed.

(** With the two folders named [docs] the file under [/docs] is listed by
    the second as by the first; with the folders of [Sample.folderNodes],
    whose names differ, it is listed by one folder only. *)
Lemma file_in_at_most_one_folder_of_distinct_names_witness :
  (inRelationLists (Node.id (fileNode defaultOptions Sample.a_md))
     (linkedFolder Sample.fileNodes (folderNode Sample.docs_nested)) <->
   (exists n, getParentFolderName (fileNode defaultOptions Sample.a_md) = Ok n /\
              Node.name (linkedFolder Sample.fileNodes (folderNode Sample.docs_nested))
                = Some n) /\
   (Node.typeOf (fileNode defaultOptions Sample.a_md) = TYPE_IMAGE \/
    Node.typeOf (fileNode defaultOptions Sample.a_md) = TYPE_MARKDOWN))
  /\
  (forall i j first second,
      (i < length Sample.folderNodes)%nat -> (j < length Sample.folderNodes)%nat ->
      nth_error Sample.linked i = Some first ->
      nth_error Sample.linked j = Some second ->
      inRelationLists (Node.id (fileNode defaultOptions Sample.a_md)) first ->
      inRelationLists (Node.id (fileNode defaultOptions Sample.a_md)) second ->
      i = j).
Proof.
  split.
  - refine (proj1 (file_in_at_most_one_folder_of_distinct_names
                     Sample.sameNameFolders Sample.fileNodes
                     (List.map (linkedFolder Sample.fileNodes) Sample.sameNameFolders
                      ++ Sample.fileNodes)
                     _ _ (fileNode defaultOptions Sample.a_md) _)
                  1%nat (linkedFolder Sample.fileNodes (folderNode Sample.docs_nested))
                  _ _).
    + reflexivity.
    + repeat constructor; cbn; intuition discriminate.
    + cbn. auto.
    + cbn. lia.
    + reflexivity.
  - refine (proj2 (file_in_at_most_one_folder_of_distinct_names
                     Sample.folderNodes Sample.fileNodes Sample.linked
                     _ _ (fileNode defaultOptions Sample.a_md) _) _).
    + reflexivity.
    + repeat constructor; cbn; intuition discriminate.
    + cbn. auto.
    + repeat constructor; cbn; intuition discriminate.
Defined.

(** C10: a file record whose parent prefix (its path up to the last slash)
    holds two or more slashes, as in [/a/b/c.md], is in the relation lists of
    no linked folder record, given that no folder name contains a slash (and
    that file ids are unique): the parent folder name keeps every slash of
    the prefix but the first. *)
Theorem nested_file_in_no_relation_list :
  forall (folderNodes fileNodes linked : list Node.t) (file : Node.t) (path : string),
    getLinkedNodes folderNodes fileNodes = Ok linked ->
    (forall folderDatum n, In folderDatum folderNodes ->
       Node.name folderDatum = Some n -> JS.countChar "/" n = 0%nat) ->
    List.NoDup (List.map Node.id fileNodes) ->
    In file fileNodes ->
    Node.path file = Some path ->
    (2 <= JS.countChar "/" (JS.substring 0 (JS.lastIndexOf "/" path) path))%nat ->
    (1 <= JS.countChar "/" (parentFolderNameOf path))%nat /\
    forall i folder,
      (i < length folderNodes)%nat -> nth_error linked i = Some folder ->
      ~ inRelationLists (Node.id file) folder.
Proof.
  intros folderNodes fileNodes linked file path Hl Hbare Hids Hfile Hpath Hdeep.
  pose proof (nested_parent_has_slash path Hdeep) as Hslash.
  split; [exact Hslash|].
  intros i folder Hi Hn Hrel.
  destruct (linked_folder_at _ _ _ _ _ Hl Hi Hn) as (d & Hd & ->).
  assert (Hrelated : relatedTo (Node.name d) file = true).
  { destruct Hrel as [Hx|Hx];
      [apply inImageList_linked in Hx|apply inMarkdownList_linked in Hx];
      apply In_relatedIds in Hx; destruct Hx as (g & Hg & Hid & Hr & _);
      assert (g = file) by (now apply (same_id_same_node fileNodes));
      subst g; exact Hr. }
  apply relatedTo_iff in Hrelated as (n & Hn' & Hname).
  unfold getParentFolderName in Hn'. rewrite Hpath in Hn'. inversion Hn'; subst n.
  apply nth_error_In in Hd.
  specialize (Hbare d _ Hd Hname). lia.
Qed.

Lemma nested_file_in_no_relation_list_witness :
  (1 <= JS.countChar "/" (parentFolderNameOf "/a/b/c.md"))%nat /\
  forall i folder,
    (i < length Sample.deepFolders)%nat ->
    nth_error (List.map (linkedFolder Sample.deepFiles) Sample.deepFolders
               ++ Sample.deepFiles) i = Some folder ->
    ~ inRelationLists (Node.id (fileNode defaultOptions Sample.deep_md)) folder.
Proof.
  apply (nested_file_in_no_relation_list
           Sample.deepFolders Sample.deepFiles
           (List.map (linkedFolder Sample.deepFiles) Sample.deepFolders ++ Sample.deepFiles)
           (fileNode defaultOptions Sample.deep_md) "/a/b/c.md").
  - reflexivity.
  - intros d n [<-|[<-|[<-|[]]]] Hn; cbn in Hn; inversion Hn; reflexivity.
  - repeat constructor; cbn; intuition discriminate.
  - cbn. auto.
  - reflexivity.
  - vm_compute. lia.
Defined.

(** ** The builder *)

Lemma createNodeData_EmptyArray (options : Options.t) :
  createNodeData EmptyArray options = Throw TypeError.
Proof. reflexivity. Qed.

Lemma fileNodesOf_have_path (options : Options.t) (entries : list Entry.t) :
  Forall (fun file => Node.path file <> None) (fileNodesOf options entries).
Proof.
  unfold fileNodesOf. apply List.Forall_forall. intros file Hin.
  apply in_map_iff in Hin as (e & <- & _). discriminate.
Qed.

Lemma createNodeData_listing (entries : list Entry.t) (options : Options.t) :
  createNodeData (ListFolderResult entries) options =
  Ok (if Options.createFolderNodes options
      then List.map (linkedFolder (fileNodesOf options entries)) (folderNodesOf entries)
           ++ fileNodesOf options entries
      else fileNodesOf options entries).
Proof.
  unfold createNodeData. cbn [extractFiles extractFolders entriesOf bindR].
  destruct (Options.createFolderNodes options); [|reflexivity].
  apply getLinkedNodes_total, fileNodesOf_have_path.
Qed.

Lemma createNodeData_Ok_inv (data : Data) (options : Options.t) (nodes : list Node.t) :
  createNodeData data options = Ok nodes ->
  exists entries,
    data = ListFolderResult entries /\
    nodes =
      if Options.createFolderNodes options
      then List.map (linkedFolder (fileNodesOf options entries)) (folderNodesOf entries)
           ++ fileNodesOf options entries
      else fileNodesOf options entries.
Proof.
  destruct data as [entries|]; intros H.
  - rewrite createNodeData_listing in H. inversion H. eauto.
  - discriminate H.
Qed.

Lemma getNodeType_not_folder (file : Entry.t) (options : Options.t) :
  getNodeType file options <> TYPE_FOLDER.
Proof.
  unfold getNodeType. destruct (Options.createFolderNodes options); [|discriminate].
  cbv zeta. repeat match goal with |- context [if ?b then _ else _] => destruct b end;
    discriminate.
Qed.

Lemma fileNodesOf_not_folder (options : Options.t) (entries : list Entry.t) (node : Node.t) :
  In node (fileNodesOf options entries) -> Node.typeOf node <> TYPE_FOLDER.
Proof.
  unfold fileNodesOf. intros Hin. apply in_map_iff in Hin as (e & <- & _).
  apply getNodeType_not_folder.
Qed.

Lemma folderNodesOf_folder (entries : list Entry.t) (node : Node.t) :
  In node (folderNodesOf entries) -> Node.typeOf node = TYPE_FOLDER.
Proof.
  unfold folderNodesOf. intros Hin. apply in_app_or in Hin as [Hin|[<-|[]]].
  - apply in_map_iff in Hin as (e & <- & _). reflexivity.
  - reflexivity.
Qed.

(** The synthetic root folder has no [name], so no file is related to it. *)
Lemma root_folder_lists_empty (fileNodes : list Node.t) :
  linkedFolder fileNodes rootFolderNode =
  Node.withRelations rootFolderNode [] [].
Proof.
  unfold linkedFolder, relatedIds. cbn [Node.name rootFolderNode].
  assert (Hnone : List.filter (relatedTo None) fileNodes = []).
  { induction fileNodes as [|f l IH]; [reflexivity|]. cbn.
    unfold relatedTo at 1. destruct (Node.path f); cbn; exact IH. }
  now rewrite Hnone.
Qed.

(** C3, as stated, fails: the root-level file [/notes.txt] is of type
    Default and is in no relation list, although a folder named [root] is
    there. *)
Lemma root_level_default_file_in_no_list :
  exists nodes file,
    createNodeData (ListFolderResult [Sample.notes_txt; Sample.root_dir]) Sample.txtOptions
      = Ok nodes /\
    In file nodes /\
    Node.path file = Some "/notes.txt" /\
    JS.lastIndexOf "/" "/notes.txt" <= 0 /\
    (exists folder, In folder nodes /\ Node.typeOf folder = TYPE_FOLDER /\
                    Node.name folder = Some "root") /\
    forall folder, In folder nodes -> ~ inRelationLists (Node.id file) folder.
Proof.
  eexists _, (fileNode Sample.txtOptions Sample.notes_txt).
  split; [vm_compute; reflexivity|].
  split; [cbn; auto|]. split; [reflexivity|]. split; [vm_compute; discriminate|].
  split.
  - eexists. split; [left; reflexivity|]. split; reflexivity.
  - intros folder [<-|[<-|[<-|[]]]] [(l & Hl & Hin)|(l & Hl & Hin)];
      cbn in Hl; inversion Hl; subst l; exact Hin.
Qed.

(** C3, amended: with folder records enabled, a file record of type Markdown
    (of type Image) whose path has no slash after its first character is in
    the markdown list (the image list) of every folder record built from a
    listed folder named [root]. *)
Theorem root_level_file_in_folder_named_root :
  forall (data : Data) (options : Options.t) (nodes : list Node.t)
         (file folder : Node.t) (path : string),
    createNodeData data options = Ok nodes ->
    Options.createFolderNodes options = true ->
    In file nodes -> In folder nodes ->
    Node.path file = Some path ->
    JS.lastIndexOf "/" path <= 0 ->
    Node.typeOf folder = TYPE_FOLDER ->
    Node.name folder = Some "root" ->
    (Node.typeOf file = TYPE_MARKDOWN -> inMarkdownList (Node.id file) folder) /\
    (Node.typeOf file = TYPE_IMAGE -> inImageList (Node.id file) folder).
Proof.
  intros data options nodes file folder path Hc Hopt Hfile Hfolder Hpath Hroot Hty Hname.
  apply createNodeData_Ok_inv in Hc as (entries & -> & ->). rewrite Hopt in *.
  assert (Hf : forall ty, Node.typeOf file = ty -> ty <> TYPE_FOLDER ->
                          In file (fileNodesOf options entries)).
  { intros ty Hfty Hne. apply in_app_or in Hfile as [Hin|Hin]; [|exact Hin].
    apply in_map_iff in Hin as (d & <- & Hd).
    apply folderNodesOf_folder in Hd.
    change (Node.typeOf (linkedFolder (fileNodesOf options entries) d))
      with (Node.typeOf d) in Hfty. congruence. }
  assert (Hd : exists d, folder = linkedFolder (fileNodesOf options entries) d).
  { apply in_app_or in Hfolder as [Hin|Hin].
    - apply in_map_iff in Hin as (d & <- & _). eauto.
    - apply fileNodesOf_not_folder in Hin. contradiction. }
  destruct Hd as (d & ->).
  change (Node.name d = Some "root") in Hname.
  assert (Hrel : relatedTo (Node.name d) file = true).
  { unfold relatedTo. rewrite Hpath, Hname, (parentFolderNameOf_root path Hroot).
    reflexivity. }
  split; intros Hfty.
  - apply inMarkdownList_linked, In_relatedIds. exists file.
    split; [apply (Hf _ Hfty); discriminate|]. auto.
  - apply inImageList_linked, In_relatedIds. exists file.
    split; [apply (Hf _ Hfty); discriminate|]. auto.
Qed.

(** ** The materializer *)

Section Materializer.

Variable dbx : Dropbox.
Variable createImpl : string -> string -> string -> Result (option string).
Variable basename : string -> string -> string.

Lemma emitted_app (a b : list Event) : emitted (a ++ b) = emitted a ++ emitted b.
Proof. unfold emitted. apply flat_map_app. Qed.

Lemma cacheKey_inj (a b : string) : cacheKey a = cacheKey b -> a = b.
Proof. unfold cacheKey. apply app_prefix_inv. Qed.

Lemma processRemoteFile_other_type (datum : Node.t) (w : World) :
  isFileType (Node.typeOf datum) = false ->
  processRemoteFile dbx createImpl basename datum w = (Ok datum, w).
Proof.
  intros Hty. unfold processRemoteFile, bindA, retA. now rewrite Hty.
Qed.

Lemma processRemoteFile_warm (datum : Node.t) (w : World) (data : CacheData.t) :
  isFileType (Node.typeOf datum) = true ->
  cache w !! cacheKey (Node.id datum) = Some data ->
  JS.truthy (CacheData.fileNodeID data) = true ->
  processRemoteFile dbx createImpl basename datum w =
  (Ok (Node.withLocalFile datum (CacheData.fileNodeID data)),
   {| cache := cache w;
      trace := trace w ++ [CacheGet (cacheKey (Node.id datum));
                           TouchNode (CacheData.fileNodeID data)] |}).
Proof.
  intros Hty Hhit Htruthy.
  unfold processRemoteFile, bindA, retA, cacheGet, touchNode, emit.
  rewrite Hty. cbn. rewrite Hhit. cbn. rewrite Htruthy. cbn. rewrite Htruthy.
  now rewrite <- List.app_assoc.
Qed.

Lemma processRemoteFile_cold (datum : Node.t) (w : World) :
  isFileType (Node.typeOf datum) = true ->
  cache w !! cacheKey (Node.id datum) = None ->
  exists events,
    emitted events = [] /\
    processRemoteFile dbx createImpl basename datum w =
    (Ok (attach datum (downloadOutcome dbx createImpl basename datum)),
     {| cache :=
          match downloadOutcome dbx createImpl basename datum with
          | Some newId => <[cacheKey (Node.id datum) := CacheData.mk newId]> (cache w)
          | None => cache w
          end;
        trace := trace w ++ events |}).
Proof.
  intros Hty Hmiss.
  unfold processRemoteFile, downloadOutcome, attach, bindA, retA, tryCatch, cacheGet,
    cacheSet, getTemporaryUrl, createRemoteFileNode, touchNode, emit, liftR.
  rewrite Hty. cbn. rewrite Hmiss. cbn.
  destruct (filesGetTemporaryLink dbx (Node.path datum)) as [url|e]; cbn.
  - destruct (Node.name datum) as [name|]; cbn.
    + destruct (createImpl url (Path.extname name) (basename name (Path.extname name)))
        as [[newId|]|e]; cbn; rewrite <- ?List.app_assoc; cbn;
        eexists; (split; [|reflexivity]); reflexivity.
    + rewrite <- ?List.app_assoc; cbn. eexists; (split; [|reflexivity]); reflexivity.
  - rewrite <- ?List.app_assoc; cbn. eexists; (split; [|reflexivity]); reflexivity.
Qed.

Ltac run_action :=
  unfold processRemoteFile, bindA, retA, tryCatch, cacheGet, cacheSet, getTemporaryUrl,
    createRemoteFileNode, touchNode, emit, liftR.

(** [processRemoteFile] always returns: the record it was given, or that
    record with a truthy payload reference attached; it hands nothing to
    [createNode] and touches no cache key but the record's own. *)
Lemma processRemoteFile_returns (datum : Node.t) (w : World) :
  exists result w',
    processRemoteFile dbx createImpl basename datum w = (Ok result, w') /\
    (result = datum \/
     exists ref, JS.truthy ref = true /\ result = Node.withLocalFile datum ref) /\
    emitted (trace w') = emitted (trace w) /\
    (forall key, key <> cacheKey (Node.id datum) -> cache w' !! key = cache w !! key).
Proof.
  destruct (isFileType (Node.typeOf datum)) eqn:Hty.
  - destruct (cache w !! cacheKey (Node.id datum)) as [data|] eqn:Hc.
    + destruct (JS.truthy (CacheData.fileNodeID data)) eqn:Ht.
      * rewrite (processRemoteFile_warm datum w data Hty Hc Ht).
        eexists _, _. split; [reflexivity|]. split; [eauto|]. cbn.
        split; [|reflexivity]. rewrite emitted_app. cbn. apply app_nil_r.
      * run_action. rewrite Hty. cbn. rewrite Hc. cbn. rewrite Ht. cbn.
        destruct (filesGetTemporaryLink dbx (Node.path datum)) as [url|e]; cbn;
          [destruct (Node.name datum) as [name|]; cbn;
           [destruct (createImpl url (Path.extname name)
                        (basename name (Path.extname name))) as [[newId|]|e]; cbn|]|];
          rewrite ?Ht; try destruct (JS.truthy newId) eqn:Hn;
          (eexists _, _; split; [reflexivity|]; split; [eauto|]; cbn;
           rewrite !emitted_app; cbn; rewrite ?app_nil_r;
           split; [reflexivity|];
           intros key Hkey; rewrite ?lookup_insert_ne by congruence; reflexivity).
    + destruct (processRemoteFile_cold datum w Hty Hc) as (events & Hev & ->).
      eexists _, _. split; [reflexivity|]. cbn. split; [|split].
      * unfold attach. destruct (downloadOutcome _ _ _ _) as [ref|]; [|auto].
        destruct (JS.truthy ref) eqn:Ht; eauto.
      * rewrite emitted_app, Hev. apply app_nil_r.
      * intros key Hkey. destruct (downloadOutcome _ _ _ _); [|reflexivity].
        now rewrite lookup_insert_ne by congruence.
  - rewrite (processRemoteFile_other_type datum w Hty). eexists _, _.
    split; [reflexivity|]. auto.
Qed.

(** *** Tasks and the scheduler *)

Lemma runToEnd_emits (depth : nat) :
  forall (pending : list Node.t) (task : Task unit) (firstError : option Exception)
         (w : World),
    willEmit depth pending task ->
    exists w',
      runToEnd task firstError w = (firstError, w') /\
      emitted (trace w') = emitted (trace w) ++ pending.
Proof.
  induction depth as [|depth IH]; intros pending [a|resume] firstError w Hwill;
    cbn in Hwill.
  - subst pending. exists w. split; [reflexivity|]. now rewrite app_nil_r.
  - contradiction.
  - subst pending. exists w. split; [reflexivity|]. now rewrite app_nil_r.
  - destruct (Hwill w) as (task' & w1 & now & later & Hrun & Hem & -> & Hlater).
    destruct (IH later task' firstError w1 Hlater) as (w' & Hend & Hem').
    exists w'. cbn. rewrite Hrun. split; [exact Hend|].
    now rewrite Hem', Hem, <- List.app_assoc.
Qed.

Lemma drain_emits (pendings : list (list Node.t)) (pool : list (Task unit)) :
  Forall2 awaits pendings pool ->
  forall (firstError : option Exception) (w : World),
    exists w',
      drain pool firstError w = (firstError, w') /\
      emitted (trace w') = emitted (trace w) ++ List.concat pendings.
Proof.
  induction 1 as [|pending task pendings pool [depth Hwill] _ IH]; intros firstError w.
  - exists w. split; [reflexivity|]. cbn. now rewrite app_nil_r.
  - destruct (runToEnd_emits depth pending task firstError w Hwill) as (w1 & Hrun & Hem).
    destruct (IH firstError w1) as (w' & Hrest & Hem').
    exists w'. cbn. rewrite Hrun. split; [exact Hrest|].
    now rewrite Hem', Hem, <- List.app_assoc.
Qed.

Lemma concat_insert_split (pendings : list (list Node.t)) (i : nat)
    (now later : list Node.t) :
  pendings !! i = Some (now ++ later) ->
  Permutation (now ++ List.concat (<[i := later]> pendings)) (List.concat pendings).
Proof.
  revert i. induction pendings as [|p pendings IH]; intros [|i] Hi; cbn in *;
    try discriminate.
  - injection Hi as ->. now rewrite <- List.app_assoc.
  - etransitivity; [|apply Permutation_app_head, (IH i Hi)].
    rewrite !List.app_assoc. apply Permutation_app_tail, Permutation_app_comm.
Qed.

Lemma resumeAt_emits (i : nat) (pendings : list (list Node.t)) (pool : list (Task unit))
    (firstError : option Exception) (w : World) :
  Forall2 awaits pendings pool ->
  exists pool' w' now pendings',
    resumeAt i pool firstError w = (pool', firstError, w') /\
    emitted (trace w') = emitted (trace w) ++ now /\
    Forall2 awaits pendings' pool' /\
    Permutation (now ++ List.concat pendings') (List.concat pendings).
Proof.
  intros Hall. unfold resumeAt.
  destruct (pool !! i) as [[a|resume]|] eqn:Hi.
  - exists pool, w, [], pendings. split; [reflexivity|].
    split; [now rewrite app_nil_r|]. split; [exact Hall|reflexivity].
  - destruct (Forall2_lookup_r _ _ _ _ _ Hall Hi) as (pending & Hp & [depth Hwill]).
    destruct depth as [|depth]; [contradiction|]. cbn in Hwill.
    destruct (Hwill w) as (task' & w1 & now & later & Hrun & Hem & -> & Hlater).
    rewrite Hrun. exists (<[i := task']> pool), w1, now, (<[i := later]> pendings).
    split; [reflexivity|]. split; [exact Hem|]. split.
    + apply Forall2_insert; [exact Hall|]. now exists depth.
    + now apply concat_insert_split.
  - exists pool, w, [], pendings. split; [reflexivity|].
    split; [now rewrite app_nil_r|]. split; [exact Hall|reflexivity].
Qed.

Lemma runScheduled_emits (schedule : list nat) :
  forall (pendings : list (list Node.t)) (pool : list (Task unit))
         (firstError : option Exception) (w : World),
    Forall2 awaits pendings pool ->
    exists pool' w' out pendings',
      runScheduled schedule pool firstError w = (pool', firstError, w') /\
      emitted (trace w') = emitted (trace w) ++ out /\
      Forall2 awaits pendings' pool' /\
      Permutation (out ++ List.concat pendings') (List.concat pendings).
Proof.
  induction schedule as [|i schedule IH]; intros pendings pool firstError w Hall.
  - exists pool, w, [], pendings. split; [reflexivity|].
    split; [now rewrite app_nil_r|]. split; [exact Hall|reflexivity].
  - destruct (resumeAt_emits i pendings pool firstError w Hall)
      as (pool1 & w1 & now & pendings1 & Hrun & Hem & Hall1 & Hperm).
    destruct (IH pendings1 pool1 firstError w1 Hall1)
      as (pool' & w' & out & pendings' & Hrest & Hem' & Hall' & Hperm').
    exists pool', w', (now ++ out), pendings'. cbn. rewrite Hrun.
    split; [exact Hrest|]. split; [now rewrite Hem', Hem, <- List.app_assoc|].
    split; [exact Hall'|].
    rewrite <- Hperm, <- Hperm', <- List.app_assoc. reflexivity.
Qed.

(** *** The materializer as a task *)

Ltac run_task :=
  unfold callback, processRemoteFileTask, uninterrupted, issue, bindA, retA, tryCatch,
    cacheGet, cacheSet, getTemporaryUrl, createRemoteFileNode, touchNode, createNode,
    emit, liftR.

(** Run without interruption, the task is [processRemoteFile]. *)
Lemma processRemoteFileTask_uninterrupted (datum : Node.t) (w : World) :
  uninterrupted (processRemoteFileTask dbx createImpl basename datum) w =
  processRemoteFile dbx createImpl basename datum w.
Proof.
  unfold processRemoteFile. run_task.
  destruct (isFileType (Node.typeOf datum)); [|reflexivity]. cbn.
  destruct (cache w !! cacheKey (Node.id datum)) as [data|]; cbn.
  - destruct (JS.truthy (CacheData.fileNodeID data)) eqn:Ht; cbn; rewrite ?Ht; cbn;
      [reflexivity|].
    destruct (filesGetTemporaryLink dbx (Node.path datum)) as [url|e]; cbn;
      [|rewrite ?Ht; reflexivity].
    destruct (Node.name datum) as [name|]; cbn; [|rewrite ?Ht; reflexivity].
    destruct (createImpl url (Path.extname name) (basename name (Path.extname name)))
      as [[newId|]|e]; cbn; rewrite ?Ht; reflexivity.
  - destruct (filesGetTemporaryLink dbx (Node.path datum)) as [url|e]; cbn;
      [|reflexivity].
    destruct (Node.name datum) as [name|]; cbn; [|reflexivity].
    destruct (createImpl url (Path.extname name) (basename name (Path.extname name)))
      as [[newId|]|e]; reflexivity.
Qed.

Ltac use_truthy :=
  repeat match goal with H : JS.truthy _ = _ |- _ => rewrite H end.

(** A segment that hands nothing to [createNode], and one that hands it one
    record and settles. *)
Ltac quiet_segment :=
  let w := fresh "w" in
  intros w; eexists _, _, (@nil Node.t), _;
  split; [reflexivity|];
  split; [cbn; rewrite ?emitted_app; cbn; rewrite ?app_nil_r; reflexivity|];
  split; [reflexivity|]; cbn.

Ltac last_segment :=
  let w := fresh "w" in
  intros w; eexists _, _, [_], (@nil Node.t);
  split; [reflexivity|];
  split; [|split]; [ | reflexivity | reflexivity];
  cbn; rewrite ?emitted_app; cbn; use_truthy; reflexivity.

(** Started on a world, a callback makes at most the cache lookup and then
    awaits; from there on it hands to [createNode] one record, fixed by what
    the lookup resolved to, however the other callbacks are scheduled. *)
Lemma callback_starts (datum : Node.t) (w : World) :
  exists task events,
    callback dbx createImpl basename datum w =
      (Ok task, {| cache := cache w; trace := trace w ++ events |}) /\
    emitted events = [] /\
    willEmit 5
      [eventual dbx createImpl basename (cache w !! cacheKey (Node.id datum)) datum]
      task.
Proof.
  unfold eventual, downloadOutcome, attach. run_task.
  destruct (isFileType (Node.typeOf datum)); cbn.
  - destruct (cache w !! cacheKey (Node.id datum)) as [data|]; cbn;
      [destruct (JS.truthy (CacheData.fileNodeID data)) eqn:Ht|];
      (destruct (filesGetTemporaryLink dbx (Node.path datum)) as [url|e];
       [destruct (Node.name datum) as [name|];
        [destruct (createImpl url (Path.extname name)
                     (basename name (Path.extname name))) as [[newId|]|e]|]|]);
      (eexists _, [_]; split; [reflexivity|]; split; [reflexivity|]);
      cbn; use_truthy; cbn; repeat quiet_segment; use_truthy; last_segment.
  - destruct w as [c t]. eexists _, [].
    split; [cbn; rewrite app_nil_r; reflexivity|]. split; [reflexivity|].
    cbn. last_segment.
Qed.

Lemma eventual_sameButPayload (cacheRemoteData : option CacheData.t) (datum : Node.t) :
  sameButPayload datum (eventual dbx createImpl basename cacheRemoteData datum).
Proof.
  unfold eventual, attach, sameButPayload.
  destruct (isFileType (Node.typeOf datum)); [|auto].
  destruct cacheRemoteData as [data|]; cbn;
    [destruct (JS.truthy (CacheData.fileNodeID data)) eqn:Ht; cbn; use_truthy; eauto|];
    (destruct (downloadOutcome dbx createImpl basename datum) as [newId|];
     [destruct (JS.truthy newId) eqn:Hn; eauto|use_truthy; auto]).
Qed.

Lemma eventual_cold (c : gmap string CacheData.t) (datum : Node.t) :
  coldFor c datum ->
  eventual dbx createImpl basename (c !! cacheKey (Node.id datum)) datum =
  materialized dbx createImpl basename datum.
Proof.
  unfold coldFor, eventual, materialized, attach. intros Hcold.
  destruct (isFileType (Node.typeOf datum)); [|reflexivity].
  destruct (c !! cacheKey (Node.id datum)) as [data|]; cbn.
  - rewrite (Hcold data eq_refl).
    now destruct (downloadOutcome dbx createImpl basename datum).
  - now destruct (downloadOutcome dbx createImpl basename datum).
Qed.

(** The record a callback hands to [createNode] is the one
    [processRemoteFile] returns on the world the callback was started on. *)
Lemma eventual_processRemoteFile (datum : Node.t) (w : World) :
  fst (processRemoteFile dbx createImpl basename datum w) =
  Ok (eventual dbx createImpl basename (cache w !! cacheKey (Node.id datum)) datum).
Proof.
  unfold eventual, downloadOutcome, attach. run_action.
  destruct (isFileType (Node.typeOf datum)); [|reflexivity]. cbn.
  destruct (cache w !! cacheKey (Node.id datum)) as [data|]; cbn;
    [destruct (JS.truthy (CacheData.fileNodeID data)) eqn:Ht; cbn; use_truthy;
     [reflexivity|]|];
    (destruct (filesGetTemporaryLink dbx (Node.path datum)) as [url|e]; cbn;
     [destruct (Node.name datum) as [name|]; cbn;
      [destruct (createImpl url (Path.extname name)
                   (basename name (Path.extname name))) as [[newId|]|e]; cbn|]|]);
    use_truthy; reflexivity.
Qed.

(** Every callback is started, in order, before any is resumed: each sees
    the cache as it was when the batch began. *)
Lemma start_phase (nodes : list Node.t) :
  forall (started : list (Task unit)) (w : World),
    exists tasks w',
      runScheduled (seq (length started) (length nodes))
        (started ++ List.map Awaiting (List.map (callback dbx createImpl basename) nodes))
        None w = (started ++ tasks, None, w') /\
      cache w' = cache w /\
      emitted (trace w') = emitted (trace w) /\
      Forall2 (fun datum task =>
                 willEmit 5
                   [eventual dbx createImpl basename
                      (cache w !! cacheKey (Node.id datum)) datum] task)
              nodes tasks.
Proof.
  induction nodes as [|datum nodes IH]; intros started w.
  - exists [], w. cbn. rewrite app_nil_r. repeat split. constructor.
  - destruct (callback_starts datum w) as (task & events & Hrun & Hev & Hwill).
    set (w1 := {| cache := cache w; trace := trace w ++ events |}) in *.
    destruct (IH (started ++ [task]) w1) as (tasks & w' & Hrest & Hcache & Hem & Hall).
    exists (task :: tasks), w'. split; [|split; [|split]].
    + cbn [length seq List.map runScheduled]. unfold resumeAt.
      rewrite list_lookup_middle by reflexivity. rewrite Hrun.
      rewrite insert_app_r_alt by lia. rewrite Nat.sub_diag. cbn [insert list_insert].
      rewrite length_app, Nat.add_comm in Hrest. cbn in Hrest.
      rewrite <- List.app_assoc in Hrest. cbn in Hrest.
      rewrite Hrest. now rewrite <- List.app_assoc.
    + exact Hcache.
    + rewrite Hem. subst w1. cbn. rewrite emitted_app, Hev. apply app_nil_r.
    + constructor; [exact Hwill|]. exact Hall.
Qed.

(** Whatever the schedule and whatever the cache holds, the batch returns
    and hands to [createNode], in some order, one record per record it was
    given: the one [processRemoteFile] returns for it on the world the
    batch began with. *)
Lemma emitAll_settles (schedule : list nat) (nodes : list Node.t) (w : World) :
  exists w' out,
    emitAll dbx createImpl basename schedule nodes w = (Ok tt, w') /\
    emitted (trace w') = emitted (trace w) ++ out /\
    Permutation out
      (List.map (fun datum =>
                   eventual dbx createImpl basename
                     (cache w !! cacheKey (Node.id datum)) datum) nodes).
Proof.
  unfold emitAll, promiseAll. rewrite length_map.
  destruct (start_phase nodes [] w) as (tasks & w1 & Hstart & _ & Hem1 & Hall).
  cbn [length app] in Hstart. rewrite Hstart.
  set (result := fun datum =>
         eventual dbx createImpl basename (cache w !! cacheKey (Node.id datum)) datum)
    in *.
  assert (Hawaits : Forall2 awaits (List.map (fun datum => [result datum]) nodes) tasks).
  { clear Hstart. induction Hall as [|datum task nodes tasks Hwill _ IH];
      cbn; constructor; [now exists 5%nat|exact IH]. }
  destruct (runScheduled_emits schedule _ tasks None w1 Hawaits)
    as (waiting & w2 & out & pendings & Hrun & Hem2 & Hwaiting & Hperm).
  rewrite Hrun.
  destruct (drain_emits pendings waiting Hwaiting None w2) as (w3 & Hdrain & Hem3).
  rewrite Hdrain. exists w3, (out ++ List.concat pendings).
  split; [reflexivity|]. split.
  - now rewrite Hem3, Hem2, Hem1, <- List.app_assoc.
  - rewrite Hperm. clear. induction nodes as [|datum nodes IH]; cbn; [reflexivity|].
    now constructor.
Qed.

(** When the listing step fails, [getData] logs a warning and returns the
    empty array. *)
Lemma getData_listing_fails (options : Options.t) (w : World) :
  listingFails dbx options ->
  exists events,
    emitted events = [] /\
    getData dbx options w =
      (Ok EmptyArray, {| cache := cache w; trace := trace w ++ events |}).
Proof.
  unfold getData, tryCatch, bindA, retA, getFolderId, listFiles, emit, liftR.
  intros [(Hpath & e & Hmeta)|(folderId & e & [(Hpath & ->)|(Hpath & Hmeta)] & Hlist)].
  - apply String.eqb_neq in Hpath. rewrite Hpath. cbn. rewrite Hmeta. cbn.
    rewrite <- List.app_assoc. eexists. split; [|reflexivity]. reflexivity.
  - rewrite Hpath. cbn. rewrite Hlist. cbn.
    rewrite <- List.app_assoc. eexists. split; [|reflexivity]. reflexivity.
  - apply String.eqb_neq in Hpath. rewrite Hpath. cbn. rewrite Hmeta. cbn.
    rewrite Hlist. cbn. rewrite <- !List.app_assoc.
    eexists. split; [|reflexivity]. reflexivity.
Qed.

End Materializer.

(** ** The claims about the listing step and the classifier *)

Lemma createNodeData_empty_listing (options : Options.t) :
  createNodeData (ListFolderResult []) options =
  Ok (if Options.createFolderNodes options
      then [Node.withRelations rootFolderNode [] []]
      else []).
Proof. rewrite createNodeData_listing. now destruct (Options.createFolderNodes options). Qed.

(** C1 (the code departs from the claim): when the listing step fails,
    [getData] returns the empty array, [createNodeData] reads its missing
    [entries] and throws, and [sourceNodes] ends with that [TypeError]
    without having handed any record to [createNode]. *)
Theorem sourceNodes_throws_when_listing_fails :
  forall (dbx : Dropbox)
         (createImpl : string -> string -> string -> Result (option string))
         (basename : string -> string -> string) (schedule : list nat)
         (pluginOptions : PluginOptions.t) (w : World),
    listingFails dbx (mergeOptions defaultOptions pluginOptions) ->
    exists w',
      sourceNodes dbx createImpl basename schedule pluginOptions w
        = (Throw TypeError, w') /\
      cache w' = cache w /\
      emitted (trace w') = emitted (trace w).
Proof.
  intros dbx createImpl basename schedule pluginOptions w Hfail.
  destruct (getData_listing_fails dbx _ w Hfail) as (events & Hev & Hget).
  unfold sourceNodes, bindA at 1. rewrite Hget.
  unfold bindA, liftR. rewrite createNodeData_EmptyArray.
  eexists. split; [reflexivity|]. cbn. split; [reflexivity|].
  rewrite emitted_app, Hev. apply app_nil_r.
Qed.

Lemma sourceNodes_throws_when_listing_fails_witness :
  exists w',
    sourceNodes Sample.failingDbx Sample.createImpl Sample.basename
      (Fixture.roundRobin 5 5) PluginOptions.none Sample.emptyWorld
      = (Throw TypeError, w') /\
    cache w' = cache Sample.emptyWorld /\
    emitted (trace w') = emitted (trace Sample.emptyWorld).
Proof.
  apply (sourceNodes_throws_when_listing_fails
           Sample.failingDbx Sample.createImpl Sample.basename
           (Fixture.roundRobin 5 5) PluginOptions.none Sample.emptyWorld).
  right. exists EmptyString, (Rejected "network").
  split; [left; split; reflexivity|reflexivity].
Defined.

Lemma getNodeType_by_extension (file : Entry.t) (options : Options.t) :
  getNodeType file options =
  if Options.createFolderNodes options then
    if String.eqb (Path.extname (Entry.path_display file)) ".md" then TYPE_MARKDOWN
    else if String.eqb (Path.extname (Entry.path_display file)) ".png" then TYPE_IMAGE
    else TYPE_DEFAULT
  else TYPE_DEFAULT.
Proof. reflexivity. Qed.

(** C2 (the code departs from the claim): with the default options the
    entry [/docs/c.jpg] passes the extension filter and its record is built
    with type Default, while [.png] yields Image and [.md] Markdown: the
    [case] label [.png || .jpg] is the single string [.png]. *)
Theorem jpg_entry_built_as_default :
  isAllowedFile defaultOptions Sample.c_jpg = true /\
  or_else ".png" ".jpg" = ".png" /\
  getNodeType Sample.c_jpg defaultOptions = TYPE_DEFAULT /\
  getNodeType Sample.b_png defaultOptions = TYPE_IMAGE /\
  getNodeType Sample.a_md defaultOptions = TYPE_MARKDOWN /\
  exists nodes,
    createNodeData (ListFolderResult [Sample.c_jpg]) defaultOptions = Ok nodes /\
    In (fileNode defaultOptions Sample.c_jpg) nodes /\
    Node.typeOf (fileNode defaultOptions Sample.c_jpg) = TYPE_DEFAULT.
Proof.
  repeat (split; [reflexivity|]).
  eexists. split; [vm_compute; reflexivity|]. split; [|reflexivity].
  right. left. reflexivity.
Qed.

Lemma root_level_file_in_folder_named_root_witness :
  (Node.typeOf (fileNode Sample.txtOptions Sample.top_md) = TYPE_MARKDOWN ->
   inMarkdownList (Node.id (fileNode Sample.txtOptions Sample.top_md))
     (linkedFolder (fileNodesOf Sample.txtOptions [Sample.top_md; Sample.root_dir])
        (folderNode Sample.root_dir))) /\
  (Node.typeOf (fileNode Sample.txtOptions Sample.top_md) = TYPE_IMAGE ->
   inImageList (Node.id (fileNode Sample.txtOptions Sample.top_md))
     (linkedFolder (fileNodesOf Sample.txtOptions [Sample.top_md; Sample.root_dir])
        (folderNode Sample.root_dir))).
Proof.
  apply (root_level_file_in_folder_named_root
           (ListFolderResult [Sample.top_md; Sample.root_dir]) Sample.txtOptions
           (List.map (linkedFolder
                        (fileNodesOf Sample.txtOptions [Sample.top_md; Sample.root_dir]))
                     (folderNodesOf [Sample.top_md; Sample.root_dir])
            ++ fileNodesOf Sample.txtOptions [Sample.top_md; Sample.root_dir])
           (fileNode Sample.txtOptions Sample.top_md)
           (linkedFolder (fileNodesOf Sample.txtOptions [Sample.top_md; Sample.root_dir])
              (folderNode Sample.root_dir))
           "/top.md").
  - apply createNodeData_listing.
  - reflexivity.
  - right. right. left. reflexivity.
  - left. reflexivity.
  - reflexivity.
  - vm_compute. discriminate.
  - reflexivity.
  - reflexivity.
Defined.

(** The synthetic root folder is handed no file: for the single root-level
    file [/top.md] and the default options its two lists stay empty. *)
Example synthetic_root_stays_empty :
  createNodeData (ListFolderResult [Sample.top_md]) defaultOptions =
  Ok [Node.withRelations rootFolderNode [] []; fileNode defaultOptions Sample.top_md].
Proof.
  vm_compute. reflexivity.
Qed.

(** ** The claims about the materializer *)

Lemma downloadFails_no_outcome (dbx : Dropbox)
    (createImpl : string -> string -> string -> Result (option string))
    (basename : string -> string -> string) (datum : Node.t) :
  downloadFails dbx createImpl basename datum ->
  downloadOutcome dbx createImpl basename datum = None.
Proof.
  unfold downloadFails, downloadOutcome.
  intros [(e & ->)|(url & name & e & -> & -> & ->)]; reflexivity.
Qed.

Lemma filter_length_Permutation {A} (p : A -> bool) (l l' : list A) :
  Permutation l l' -> length (List.filter p l) = length (List.filter p l').
Proof.
  induction 1 as [|x l l' _ IH|x y l|l l' l'' _ IH1 _ IH2]; cbn.
  - reflexivity.
  - destruct (p x); cbn; now rewrite IH.
  - destruct (p x), (p y); reflexivity.
  - now rewrite IH1.
Qed.

Lemma failed_download_returns_record (dbx : Dropbox)
    (createImpl : string -> string -> string -> Result (option string))
    (basename : string -> string -> string) (datum : Node.t) (w : World) :
  isFileType (Node.typeOf datum) = true ->
  coldFor (cache w) datum ->
  downloadFails dbx createImpl basename datum ->
  exists w',
    processRemoteFile dbx createImpl basename datum w = (Ok datum, w') /\
    cache w' = cache w /\
    emitted (trace w') = emitted (trace w).
Proof.
  intros Hty Hcold Hfail.
  destruct (cache w !! cacheKey (Node.id datum)) as [data|] eqn:Hc.
  - pose proof (Hcold data Hc) as Ht.
    unfold processRemoteFile, bindA, retA, tryCatch, cacheGet, cacheSet, getTemporaryUrl,
      createRemoteFileNode, touchNode, emit, liftR.
    rewrite Hty. cbn. rewrite Hc. cbn. rewrite Ht. cbn.
    destruct Hfail as [(e & Hlink)|(url & name & e & Hlink & Hname & Hcreate)].
    + rewrite Hlink. cbn. rewrite Ht. eexists. split; [reflexivity|]. cbn.
      split; [reflexivity|]. rewrite !emitted_app. cbn. now rewrite !app_nil_r.
    + rewrite Hlink. cbn. rewrite Hname. cbn. rewrite Hcreate. cbn. rewrite Ht.
      eexists. split; [reflexivity|]. cbn.
      split; [reflexivity|]. rewrite !emitted_app. cbn. now rewrite !app_nil_r.
  - destruct (processRemoteFile_cold dbx createImpl basename datum w Hty Hc)
      as (events & Hev & Hrun).
    rewrite (downloadFails_no_outcome _ _ _ _ Hfail) in Hrun.
    eexists. split; [exact Hrun|]. cbn. split; [reflexivity|].
    rewrite emitted_app, Hev. apply app_nil_r.
Qed.

(** C6: a failure to obtain the download URL or to create the file node is
    caught inside [processRemoteFile], which returns the record as it was;
    and over a whole batch, whatever the order in which the awaited calls
    settle, every record is handed to [createNode] once, the ones whose
    download failed unchanged, the ones whose download gave a truthy
    file-node id with that id attached. *)
Theorem failed_materialization_keeps_record :
  forall (dbx : Dropbox)
         (createImpl : string -> string -> string -> Result (option string))
         (basename : string -> string -> string),
    (forall (datum : Node.t) (w : World),
        isFileType (Node.typeOf datum) = true ->
        coldFor (cache w) datum ->
        downloadFails dbx createImpl basename datum ->
        exists w',
          processRemoteFile dbx createImpl basename datum w = (Ok datum, w') /\
          cache w' = cache w /\
          emitted (trace w') = emitted (trace w))
    /\
    (forall (schedule : list nat) (nodes : list Node.t) (w : World),
        (forall datum, In datum nodes -> coldFor (cache w) datum) ->
        exists w' out,
          emitAll dbx createImpl basename schedule nodes w = (Ok tt, w') /\
          emitted (trace w') = emitted (trace w) ++ out /\
          Permutation out (List.map (materialized dbx createImpl basename) nodes) /\
          (forall datum,
              In datum nodes -> downloadFails dbx createImpl basename datum ->
              materialized dbx createImpl basename datum = datum) /\
          (forall datum ref,
              In datum nodes -> isFileType (Node.typeOf datum) = true ->
              downloadOutcome dbx createImpl basename datum = Some ref ->
              JS.truthy ref = true ->
              materialized dbx createImpl basename datum = Node.withLocalFile datum ref)).
Proof.
  intros dbx createImpl basename. split.
  - intros datum w. apply failed_download_returns_record.
  - intros schedule nodes w Hcold.
    destruct (emitAll_settles dbx createImpl basename schedule nodes w)
      as (w' & out & Hrun & Hem & Hperm).
    exists w', out. split; [exact Hrun|]. split; [exact Hem|]. split; [|split].
    + rewrite Hperm. apply Permutation_refl'. apply map_ext_in.
      intros datum Hin. apply eventual_cold, Hcold, Hin.
    + intros datum _ Hfail. unfold materialized.
      rewrite (downloadFails_no_outcome _ _ _ _ Hfail).
      now destruct (isFileType (Node.typeOf datum)).
    + intros datum ref _ Hty Hout Htruthy. unfold materialized, attach.
      now rewrite Hty, Hout, Htruthy.
Qed.

(** The scenario of the claim: of the three records of [Sample.fileNodes]
    the download of the second fails; all three are emitted, in some order,
    and exactly two carry a payload reference. *)
Lemma failed_materialization_keeps_record_witness :
  exists w' out,
    emitAll Sample.servingDbx Sample.createImpl Sample.basename
      (Fixture.roundRobin 3 5) Sample.fileNodes Sample.emptyWorld = (Ok tt, w') /\
    emitted (trace w') = emitted (trace Sample.emptyWorld) ++ out /\
    Permutation out
      [ Node.withLocalFile (fileNode defaultOptions Sample.a_md)
          "file:https://dl.example/docs/a.md";
        fileNode defaultOptions Sample.b_png;
        Node.withLocalFile (fileNode defaultOptions Sample.c_jpg)
          "file:https://dl.example/docs/c.jpg" ] /\
    length out = 3%nat /\
    length (List.filter carriesPayload out) = 2%nat.
Proof.
  destruct (proj2 (failed_materialization_keeps_record
                     Sample.servingDbx Sample.createImpl Sample.basename)
                  (Fixture.roundRobin 3 5) Sample.fileNodes Sample.emptyWorld)
    as (w' & out & Hrun & Hem & Hperm & _).
  - intros datum _ data Hdata. unfold Sample.emptyWorld in Hdata. cbn [cache] in Hdata.
    rewrite lookup_empty in Hdata. discriminate Hdata.
  - exists w', out. split; [exact Hrun|]. split; [exact Hem|].
    split; [exact Hperm|]. split.
    + now rewrite (Permutation_length Hperm).
    + now rewrite (filter_length_Permutation carriesPayload _ _ Hperm).
Defined.

(** With every callback resumed once per round, the record whose link is
    refused is handed to [createNode] first: its callback has fewer calls to
    await than the two that go on to create a file node and write the
    cache. *)
Example refused_record_is_emitted_first :
  emitted (trace (snd (emitAll Sample.servingDbx Sample.createImpl Sample.basename
                         (Fixture.roundRobin 3 5) Sample.fileNodes Sample.emptyWorld))) =
  [ fileNode defaultOptions Sample.b_png;
    Node.withLocalFile (fileNode defaultOptions Sample.a_md)
      "file:https://dl.example/docs/a.md";
    Node.withLocalFile (fileNode defaultOptions Sample.c_jpg)
      "file:https://dl.example/docs/c.jpg" ].
Proof. vm_compute. reflexivity. Qed.

(** Two records under one id are both looked up before either is written
    to the cache, so both download and each gets its own reference. *)
Example records_sharing_an_id_both_download :
  emitted (trace (snd (emitAll Sample.servingDbx Sample.createImpl Sample.basename
                         (Fixture.roundRobin 2 5)
                         [fileNode defaultOptions Sample.a_md;
                          fileNode defaultOptions Fixture.twin_md]
                         Sample.emptyWorld))) =
  [ Node.withLocalFile (fileNode defaultOptions Sample.a_md)
      "file:https://dl.example/docs/a.md";
    Node.withLocalFile (fileNode defaultOptions Fixture.twin_md)
      "file:https://dl.example/docs/z.md" ].
Proof. vm_compute. reflexivity. Qed.

(** C7: with a truthy file-node id stored under the record's cache key,
    [processRemoteFile] makes exactly two calls, the cache lookup and
    [touchNode] on the stored id (no temporary link is requested), and
    attaches the stored id; in particular a second run after a first run
    that downloaded and attached a reference attaches the same reference. *)
Theorem warm_cache_reuses_payload_reference :
  forall (dbx : Dropbox)
         (createImpl : string -> string -> string -> Result (option string))
         (basename : string -> string -> string) (datum : Node.t),
    isFileType (Node.typeOf datum) = true ->
    (forall (w : World) (data : CacheData.t),
        cache w !! cacheKey (Node.id datum) = Some data ->
        JS.truthy (CacheData.fileNodeID data) = true ->
        processRemoteFile dbx createImpl basename datum w =
        (Ok (Node.withLocalFile datum (CacheData.fileNodeID data)),
         {| cache := cache w;
            trace := trace w ++ [CacheGet (cacheKey (Node.id datum));
                                 TouchNode (CacheData.fileNodeID data)] |}))
    /\
    (forall (w0 w1 : World) (ref : string),
        Node.localFile___NODE datum = None ->
        cache w0 !! cacheKey (Node.id datum) = None ->
        processRemoteFile dbx createImpl basename datum w0 =
          (Ok (Node.withLocalFile datum ref), w1) ->
        processRemoteFile dbx createImpl basename datum w1 =
        (Ok (Node.withLocalFile datum ref),
         {| cache := cache w1;
            trace := trace w1 ++ [CacheGet (cacheKey (Node.id datum));
                                  TouchNode ref] |})).
Proof.
  intros dbx createImpl basename datum Hty. split.
  - intros w data Hhit Htruthy. now apply processRemoteFile_warm.
  - intros w0 w1 ref Hnone Hcold Hfirst.
    destruct (processRemoteFile_cold dbx createImpl basename datum w0 Hty Hcold)
      as (events & _ & Hrun).
    rewrite Hrun in Hfirst. injection Hfirst as Hres Hw. clear Hrun. subst w1.
    unfold attach in Hres.
    apply (f_equal Node.localFile___NODE) in Hres.
    destruct (downloadOutcome dbx createImpl basename datum) as [newId|];
      [destruct (JS.truthy newId) eqn:Htruthy|]; cbn in Hres; try congruence.
    injection Hres as ->.
    rewrite (processRemoteFile_warm dbx createImpl basename datum _ (CacheData.mk ref)).
    + reflexivity.
    + exact Hty.
    + cbn. apply lookup_insert_eq.
    + exact Htruthy.
Qed.

Lemma warm_cache_reuses_payload_reference_witness :
  processRemoteFile Sample.servingDbx Sample.createImpl Sample.basename
    (fileNode defaultOptions Sample.a_md) Sample.warmWorld =
  (Ok (Node.withLocalFile (fileNode defaultOptions Sample.a_md) "file:1"),
   {| cache := cache Sample.warmWorld;
      trace := trace Sample.warmWorld ++ [CacheGet (cacheKey "1"); TouchNode "file:1"] |}).
Proof.
  apply (proj1 (warm_cache_reuses_payload_reference
                  Sample.servingDbx Sample.createImpl Sample.basename
                  (fileNode defaultOptions Sample.a_md) eq_refl)
               Sample.warmWorld (CacheData.mk "file:1")).
  - apply lookup_singleton_eq.
  - reflexivity.
Defined.

Example folder_record_untouched :
  processRemoteFile Sample.servingDbx Sample.createImpl Sample.basename
    rootFolderNode Sample.emptyWorld = (Ok rootFolderNode, Sample.emptyWorld).
Proof. reflexivity. Qed.

(** C9: [processRemoteFile] returns a record that agrees with the one it
    was given on every field but the payload reference, which is either
    left as it was or set; a record of type Folder comes back as it was
    and no call is made for it. *)
Theorem processRemoteFile_only_attaches_payload :
  forall (dbx : Dropbox)
         (createImpl : string -> string -> string -> Result (option string))
         (basename : string -> string -> string) (datum : Node.t) (w : World),
    exists result w',
      processRemoteFile dbx createImpl basename datum w = (Ok result, w') /\
      (Node.id result = Node.id datum /\
       Node.parent result = Node.parent datum /\
       Node.children result = Node.children datum /\
       Node.internal result = Node.internal datum /\
       Node.name result = Node.name datum /\
       Node.path result = Node.path datum /\
       Node.lastModified result = Node.lastModified datum /\
       Node.dropboxImage___NODE result = Node.dropboxImage___NODE datum /\
       Node.dropboxMarkdown___NODE result = Node.dropboxMarkdown___NODE datum) /\
      (result = datum \/ exists ref, result = Node.withLocalFile datum ref) /\
      (Node.typeOf datum = TYPE_FOLDER -> result = datum /\ w' = w) /\
      (result <> datum \/ w' <> w ->
       Node.typeOf datum = TYPE_MARKDOWN \/ Node.typeOf datum = TYPE_IMAGE \/
       Node.typeOf datum = TYPE_DEFAULT).
Proof.
  intros dbx createImpl basename datum w.
  destruct (isFileType (Node.typeOf datum)) eqn:Hty.
  - destruct (processRemoteFile_returns dbx createImpl basename datum w)
      as (result & w' & Hrun & Hres & _ & _).
    exists result, w'. split; [exact Hrun|].
    assert (Hkind : Node.typeOf datum <> TYPE_FOLDER).
    { intros Hf. rewrite Hf in Hty. discriminate. }
    split; [|split; [|split]].
    + destruct Hres as [->|(ref & _ & ->)]; repeat split.
    + destruct Hres as [->|(ref & _ & ->)]; eauto.
    + intros Hf. contradiction.
    + intros _. destruct (Node.typeOf datum); auto. contradiction.
  - rewrite (processRemoteFile_other_type dbx createImpl basename datum w Hty).
    exists datum, w. split; [reflexivity|]. split; [repeat split|].
    split; [auto|]. split; [auto|]. intros [H|H]; contradiction.
Qed.

(** The run of the plugin on the sample listing, with the default options,
    an empty cache and every callback resumed once per round: the folder
    [docs] lists the markdown and the image file, the synthetic root lists
    nothing, the [.jpg] file is of type Default, and the file whose link is
    refused carries no payload reference and is emitted before the two
    whose download goes through. *)
Example sourceNodes_on_sample_listing :
  let run := sourceNodes Sample.servingDbx Sample.createImpl Sample.basename
               (Fixture.roundRobin 5 5) PluginOptions.none Sample.emptyWorld in
  fst run = Ok tt /\
  emitted (trace (snd run)) =
    [ Node.withRelations (folderNode Sample.docs) ["3"] ["1"];
      Node.withRelations rootFolderNode [] [];
      fileNode defaultOptions Sample.b_png;
      Node.withLocalFile (fileNode defaultOptions Sample.a_md)
        "file:https://dl.example/docs/a.md";
      Node.withLocalFile (fileNode defaultOptions Sample.c_jpg)
        "file:https://dl.example/docs/c.jpg" ].
Proof. vm_compute. split; reflexivity. Qed.

(** * Further properties of the code *)

(** ** Parent folder names *)

Lemma length_append (s t : string) :
  String.length (s +:+ t) = (String.length s + String.length t)%nat.
Proof.
  induction s as [|a s IH]; [reflexivity|].
  rewrite app_cons. cbn [String.length]. now rewrite IH.
Qed.

Lemma lastIndexOf_absent (c : ascii) (s : string) :
  JS.countChar c s = 0%nat -> JS.lastIndexOf c s = -1.
Proof.
  induction s as [|a s IH]; [reflexivity|]. cbn [JS.countChar JS.lastIndexOf].
  destruct (Ascii.eqb a c); [discriminate|]. cbn. intros H. now rewrite (IH H).
Qed.

Lemma lastIndexOf_last (c : ascii) (p f : string) :
  JS.countChar c f = 0%nat ->
  JS.lastIndexOf c (p +:+ String c f) = Z.of_nat (String.length p).
Proof.
  intros Hf. induction p as [|a p IH].
  - rewrite app_empty_l. cbn [JS.lastIndexOf String.length].
    rewrite (lastIndexOf_absent c f Hf), Ascii.eqb_refl. reflexivity.
  - rewrite app_cons. cbn [JS.lastIndexOf String.length]. rewrite IH.
    destruct (0 <=? Z.of_nat (String.length p)) eqn:Hle; [lia|].
    apply Z.leb_gt in Hle. lia.
Qed.

Lemma substring_prefix (n : nat) (p r : string) :
  n = String.length p -> String.substring 0 n (p +:+ r) = p.
Proof.
  intros ->. induction p as [|a p IH].
  - rewrite app_empty_l. now destruct r.
  - rewrite app_cons. cbn [String.length String.substring]. now rewrite IH.
Qed.

Lemma js_substring_prefix (p r : string) :
  JS.substring 0 (Z.of_nat (String.length p)) (p +:+ r) = p.
Proof.
  unfold JS.substring, JS.clamp. rewrite length_append.
  replace (Z.max 0 (Z.min 0 _)) with 0 by lia.
  replace (Z.max 0 (Z.min (Z.of_nat (String.length p)) _))
    with (Z.of_nat (String.length p)) by lia.
  replace (Z.min 0 (Z.of_nat (String.length p))) with 0 by lia.
  replace (Z.max 0 (Z.of_nat (String.length p))) with (Z.of_nat (String.length p)) by lia.
  rewrite Z.sub_0_r, Nat2Z.id. cbn [Z.to_nat]. now apply substring_prefix.
Qed.

Lemma parentFolderNameOf_directory (dir file : string) :
  dir <> EmptyString ->
  JS.countChar "/" file = 0%nat ->
  parentFolderNameOf (String "/" (dir +:+ String "/" file)) = dir.
Proof.
  intros Hdir Hfile. unfold parentFolderNameOf.
  change (String "/" (dir +:+ String "/" file))
    with (String "/" dir +:+ String "/" file).
  rewrite (lastIndexOf_last "/" (String "/" dir) file Hfile), js_substring_prefix.
  cbn [JS.replace String.prefix]. destruct (ascii_dec "/" "/") as [_|Hne]; [|congruence].
  rewrite prefix_empty. cbn [String.length JS.drop]. rewrite app_empty_l.
  destruct dir; [congruence|reflexivity].
Qed.

(** ** The linker, further *)

Lemma sublist_map_filter {A B} (f : A -> B) (p : A -> bool) (l : list A) :
  sublist (List.map f (List.filter p l)) (List.map f l).
Proof.
  induction l as [|x l IH]; cbn.
  - constructor.
  - destruct (p x); cbn; now constructor.
Qed.

Lemma filter_filter_sublist {A B} (f : A -> B) (p q : A -> bool) (l : list A) :
  sublist (List.map f (List.filter p (List.filter q l))) (List.map f l).
Proof.
  etransitivity; [apply sublist_map_filter|]. apply sublist_map_filter.
Qed.

Lemma NoDup_map_filter {A B} (f : A -> B) (p : A -> bool) (l : list A) :
  List.NoDup (List.map f l) -> List.NoDup (List.map f (List.filter p l)).
Proof.
  induction l as [|x l IH]; cbn; intros Hnd; [constructor|].
  inversion Hnd as [|? ? Hnotin Hnd']; subst.
  destruct (p x); cbn; [|now apply IH].
  constructor; [|now apply IH].
  intros Hin. apply Hnotin. apply in_map_iff in Hin as (y & Hy & Hin).
  apply filter_In in Hin as [Hin _]. rewrite <- Hy. now apply in_map.
Qed.

Lemma NoDup_relatedIds (ty : NodeType) (name : option string) (fileNodes : list Node.t) :
  List.NoDup (List.map Node.id fileNodes) ->
  List.NoDup (relatedIds ty name fileNodes).
Proof.
  intros Hnd. unfold relatedIds.
  apply NoDup_map_filter.
  now apply NoDup_map_filter.
Qed.

(** X1: a file whose path is [/dir/base], with [base] free of slashes, has
    the parent folder name [dir], the whole directory path without its
    leading slash; if it is of type Markdown or Image it is listed by every
    linked folder named [dir], and (ids being unique) by no folder of
    another name. *)
Theorem file_listed_by_folders_named_after_directory :
  forall (folderNodes fileNodes linked : list Node.t) (i : nat)
         (folder file : Node.t) (dir base : string),
    getLinkedNodes folderNodes fileNodes = Ok linked ->
    (i < length folderNodes)%nat ->
    nth_error linked i = Some folder ->
    In file fileNodes ->
    Node.path file = Some (String "/" (dir +:+ String "/" base)) ->
    dir <> EmptyString ->
    JS.countChar "/" base = 0%nat ->
    getParentFolderName file = Ok dir /\
    (Node.name folder = Some dir ->
     (Node.typeOf file = TYPE_MARKDOWN -> inMarkdownList (Node.id file) folder) /\
     (Node.typeOf file = TYPE_IMAGE -> inImageList (Node.id file) folder)) /\
    (List.NoDup (List.map Node.id fileNodes) ->
     inRelationLists (Node.id file) folder ->
     Node.name folder = Some dir).
Proof.
  intros folderNodes fileNodes linked i folder file dir base Hl Hi Hn Hfile Hpath Hdir Hbase.
  destruct (linked_folder_at _ _ _ _ _ Hl Hi Hn) as (d & _ & ->).
  change (Node.name (linkedFolder fileNodes d)) with (Node.name d).
  assert (Hparent : getParentFolderName file = Ok dir).
  { unfold getParentFolderName. rewrite Hpath.
    now rewrite (parentFolderNameOf_directory dir base Hdir Hbase). }
  split; [exact Hparent|]. split.
  - intros Hname.
    assert (Hrel : relatedTo (Node.name d) file = true)
      by (apply relatedTo_iff; eauto).
    split; intros Hty.
    + apply inMarkdownList_linked, In_relatedIds. exists file. auto.
    + apply inImageList_linked, In_relatedIds. exists file. auto.
  - intros Hnd Hin.
    assert (Hrel : relatedTo (Node.name d) file = true).
    { destruct Hin as [Hx|Hx];
        [apply inImageList_linked in Hx|apply inMarkdownList_linked in Hx];
        apply In_relatedIds in Hx; destruct Hx as (g & Hg & Hid & Hr & _);
        assert (g = file) by (now apply (same_id_same_node fileNodes));
        subst g; exact Hr. }
    apply relatedTo_iff in Hrel as (n & Hn' & Hname). congruence.
Qed.

Lemma file_listed_by_folders_named_after_directory_witness :
  getParentFolderName (fileNode defaultOptions Sample.a_md) = Ok "docs" /\
  inMarkdownList (Node.id (fileNode defaultOptions Sample.a_md))
    (linkedFolder Sample.fileNodes (folderNode Sample.docs)).
Proof.
  destruct (file_listed_by_folders_named_after_directory
              Sample.folderNodes Sample.fileNodes Sample.linked 0%nat
              (linkedFolder Sample.fileNodes (folderNode Sample.docs))
              (fileNode defaultOptions Sample.a_md) "docs" "a.md")
    as (Hparent & Hlisted & _).
  - reflexivity.
  - cbn. lia.
  - reflexivity.
  - cbn. auto.
  - reflexivity.
  - discriminate.
  - reflexivity.
  - split; [exact Hparent|]. apply Hlisted; reflexivity.
Defined.

(** X2: both relation lists of a linked folder record are set, each is a
    subsequence of the file ids in listing order, and, ids being unique,
    neither repeats an id nor shares one with the other. *)
Theorem relation_lists_follow_listing_order :
  forall (folderNodes fileNodes linked : list Node.t) (i : nat) (folder : Node.t),
    getLinkedNodes folderNodes fileNodes = Ok linked ->
    (i < length folderNodes)%nat ->
    nth_error linked i = Some folder ->
    exists images markdowns,
      Node.dropboxImage___NODE folder = Some images /\
      Node.dropboxMarkdown___NODE folder = Some markdowns /\
      sublist images (List.map Node.id fileNodes) /\
      sublist markdowns (List.map Node.id fileNodes) /\
      (List.NoDup (List.map Node.id fileNodes) ->
       List.NoDup images /\ List.NoDup markdowns /\
       forall x, In x images -> ~ In x markdowns).
Proof.
  intros folderNodes fileNodes linked i folder Hl Hi Hn.
  destruct (linked_folder_at _ _ _ _ _ Hl Hi Hn) as (d & _ & ->).
  exists (relatedIds TYPE_IMAGE (Node.name d) fileNodes),
         (relatedIds TYPE_MARKDOWN (Node.name d) fileNodes).
  split; [reflexivity|]. split; [reflexivity|].
  split; [apply filter_filter_sublist|]. split; [apply filter_filter_sublist|].
  intros Hnd. split; [now apply NoDup_relatedIds|]. split; [now apply NoDup_relatedIds|].
  intros x Himg Hmd.
  apply In_relatedIds in Himg as (f & Hf & Hidf & _ & Htf).
  apply In_relatedIds in Hmd as (g & Hg & Hidg & _ & Htg).
  assert (f = g) by (apply (same_id_same_node fileNodes); congruence).
  subst g. congruence.
Qed.

Lemma relation_lists_follow_listing_order_witness :
  exists images markdowns,
    Node.dropboxImage___NODE (linkedFolder Sample.fileNodes (folderNode Sample.docs))
      = Some images /\
    Node.dropboxMarkdown___NODE (linkedFolder Sample.fileNodes (folderNode Sample.docs))
      = Some markdowns /\
    sublist images (List.map Node.id Sample.fileNodes) /\
    sublist markdowns (List.map Node.id Sample.fileNodes) /\
    List.NoDup images /\ List.NoDup markdowns /\
    forall x, In x images -> ~ In x markdowns.
Proof.
  destruct (relation_lists_follow_listing_order
              Sample.folderNodes Sample.fileNodes Sample.linked 0%nat
              (linkedFolder Sample.fileNodes (folderNode Sample.docs)))
    as (images & markdowns & Hi & Hm & Hsi & Hsm & Hrest).
  - reflexivity.
  - cbn. lia.
  - reflexivity.
  - exists images, markdowns.
    split; [exact Hi|]. split; [exact Hm|]. split; [exact Hsi|]. split; [exact Hsm|].
    apply Hrest. repeat constructor; cbn; intuition discriminate.
Defined.

(** X3: linking adds no record and drops none: the result holds the folder
    records, then the file records exactly as they were given; a folder
    record differs from the one given only in its two relation lists. *)
Theorem linking_keeps_every_record :
  forall (folderNodes fileNodes linked : list Node.t),
    getLinkedNodes folderNodes fileNodes = Ok linked ->
    length linked = (length folderNodes + length fileNodes)%nat /\
    (forall j, nth_error linked (length folderNodes + j) = nth_error fileNodes j) /\
    (forall i folderDatum,
        nth_error folderNodes i = Some folderDatum ->
        exists folder,
          nth_error linked i = Some folder /\
          Node.id folder = Node.id folderDatum /\
          Node.parent folder = Node.parent folderDatum /\
          Node.children folder = Node.children folderDatum /\
          Node.internal folder = Node.internal folderDatum /\
          Node.name folder = Node.name folderDatum /\
          Node.path folder = Node.path folderDatum /\
          Node.lastModified folder = Node.lastModified folderDatum /\
          Node.localFile___NODE folder = Node.localFile___NODE folderDatum).
Proof.
  intros folderNodes fileNodes linked Hl.
  apply getLinkedNodes_Ok_inv in Hl. subst linked. split; [|split].
  - now rewrite length_app, length_map.
  - intros j. rewrite nth_error_app2 by (rewrite length_map; lia).
    rewrite length_map. f_equal. lia.
  - intros i d Hd. exists (linkedFolder fileNodes d). split; [|repeat split].
    rewrite nth_error_app1.
    + now rewrite nth_error_map, Hd.
    + rewrite length_map. apply nth_error_Some. congruence.
Qed.

Lemma linking_keeps_every_record_witness :
  length Sample.linked = (length Sample.folderNodes + length Sample.fileNodes)%nat /\
  nth_error Sample.linked (length Sample.folderNodes + 1)
    = nth_error Sample.fileNodes 1.
Proof.
  destruct (linking_keeps_every_record Sample.folderNodes Sample.fileNodes Sample.linked)
    as (Hlen & Hfiles & _).
  - reflexivity.
  - split; [exact Hlen|apply Hfiles].
Defined.

(** ** The builder, further *)

Lemma id_linkedFolder (fileNodes : list Node.t) (folderDatum : Node.t) :
  Node.id (linkedFolder fileNodes folderDatum) = Node.id folderDatum.
Proof. reflexivity. Qed.

Lemma ids_of_built (options : Options.t) (entries : list Entry.t) :
  List.map Node.id
    (if Options.createFolderNodes options
     then List.map (linkedFolder (fileNodesOf options entries)) (folderNodesOf entries)
          ++ fileNodesOf options entries
     else fileNodesOf options entries)
  = builtIds options entries.
Proof.
  unfold builtIds, fileNodesOf, folderNodesOf.
  destruct (Options.createFolderNodes options).
  - rewrite List.map_app, !List.map_map, List.map_app, List.map_map. reflexivity.
  - rewrite List.map_map. reflexivity.
Qed.

(** X4: on a listing [createNodeData] never throws, and it builds one record
    per listed folder (when folder records are enabled), then the synthetic
    root, then one record per file entry that passes the extension filter,
    each under the id of its entry and in listing order. *)
Theorem built_records_and_their_order :
  forall (entries : list Entry.t) (options : Options.t),
    exists nodes,
      createNodeData (ListFolderResult entries) options = Ok nodes /\
      List.map Node.id nodes = builtIds options entries /\
      length nodes =
        ((if Options.createFolderNodes options
          then length (List.filter isFolder entries) + 1 else 0)
         + length (List.filter (isAllowedFile options) entries))%nat.
Proof.
  intros entries options. eexists. split; [apply createNodeData_listing|].
  split; [apply ids_of_built|].
  unfold fileNodesOf, folderNodesOf.
  destruct (Options.createFolderNodes options);
    rewrite ?length_app, ?length_map, ?length_app, ?length_map; cbn; lia.
Qed.

(** X5: an entry that neither filter keeps (a file of another extension,
    an entry of another tag, or a folder when folder records are disabled)
    gives no record: if no kept entry of the listing has its id and the id
    is not the root's, no built record has that id. *)
Theorem filtered_entry_builds_no_record :
  forall (entries : list Entry.t) (options : Options.t) (nodes : list Node.t)
         (entry : Entry.t),
    createNodeData (ListFolderResult entries) options = Ok nodes ->
    (forall other, In other entries -> Entry.id other = Entry.id entry ->
                   isAllowedFile options other = false /\
                   (isFolder other = false \/ Options.createFolderNodes options = false)) ->
    Entry.id entry <> "dropboxRoot" ->
    ~ In (Entry.id entry) (List.map Node.id nodes).
Proof.
  intros entries options nodes entry Hc Huniq Hroot Hin.
  rewrite createNodeData_listing in Hc. injection Hc as <-.
  rewrite ids_of_built in Hin. unfold builtIds in Hin.
  apply in_app_or in Hin as [Hin|Hin].
  - destruct (Options.createFolderNodes options) eqn:Hopt; [|contradiction].
    apply in_app_or in Hin as [Hin|[Hin|[]]]; [|congruence].
    apply in_map_iff in Hin as (other & Hid & Hother).
    apply filter_In in Hother as [Hmem Hother].
    destruct (Huniq other Hmem Hid) as [_ [H|H]]; congruence.
  - apply in_map_iff in Hin as (other & Hid & Hother).
    apply filter_In in Hother as [Hmem Hother].
    destruct (Huniq other Hmem Hid) as [H _]. congruence.
Qed.

Lemma filtered_entry_builds_no_record_witness :
  exists nodes,
    createNodeData (ListFolderResult [Sample.notes_txt; Sample.a_md]) defaultOptions
      = Ok nodes /\
    (In (Entry.id Sample.notes_txt) (List.map Node.id nodes) -> False).
Proof.
  eexists. split; [apply createNodeData_listing|].
  apply (filtered_entry_builds_no_record
           [Sample.notes_txt; Sample.a_md] defaultOptions _ Sample.notes_txt).
  - apply createNodeData_listing.
  - intros other [<-|[<-|[]]] Hid.
    + split; [reflexivity|left; reflexivity].
    + discriminate Hid.
  - discriminate.
Defined.

(** X6: with folder records disabled every built record is the record of
    an allowed file entry, of type Default whatever its extension and
    without relation lists; no folder record and no synthetic root is
    built. *)
Theorem no_folder_mode_builds_default_files_only :
  forall (entries : list Entry.t) (options : Options.t) (nodes : list Node.t),
    createNodeData (ListFolderResult entries) options = Ok nodes ->
    Options.createFolderNodes options = false ->
    forall node, In node nodes ->
      Node.typeOf node = TYPE_DEFAULT /\
      Node.dropboxImage___NODE node = None /\
      Node.dropboxMarkdown___NODE node = None /\
      exists entry, In entry entries /\ isAllowedFile options entry = true /\
                    node = fileNode options entry.
Proof.
  intros entries options nodes Hc Hopt node Hin.
  rewrite createNodeData_listing, Hopt in Hc. injection Hc as <-.
  unfold fileNodesOf in Hin. apply in_map_iff in Hin as (entry & <- & Hentry).
  apply filter_In in Hentry as [Hmem Hallowed].
  split; [|split; [reflexivity|split; [reflexivity|eauto]]].
  unfold Node.typeOf. cbn. unfold getNodeType. now rewrite Hopt.
Qed.

Lemma no_folder_mode_builds_default_files_only_witness :
  Node.typeOf (fileNode Fixture.flatOptions Sample.a_md) = TYPE_DEFAULT /\
  Node.dropboxImage___NODE (fileNode Fixture.flatOptions Sample.a_md) = None /\
  Node.dropboxMarkdown___NODE (fileNode Fixture.flatOptions Sample.a_md) = None /\
  exists entry, In entry Fixture.listing /\
                isAllowedFile Fixture.flatOptions entry = true /\
                fileNode Fixture.flatOptions Sample.a_md
                  = fileNode Fixture.flatOptions entry.
Proof.
  apply (no_folder_mode_builds_default_files_only
           Fixture.listing Fixture.flatOptions
           (fileNodesOf Fixture.flatOptions Fixture.listing)).
  - apply createNodeData_listing.
  - reflexivity.
  - left. reflexivity.
Defined.

(** X7: every record [createNodeData] builds has the parent [__SOURCE__],
    no children and no payload reference; a record of type Folder has both
    relation lists set, and any other record has none of them but has a
    [name] and a [path]. *)
Theorem built_record_shape :
  forall (data : Data) (options : Options.t) (nodes : list Node.t) (node : Node.t),
    createNodeData data options = Ok nodes ->
    In node nodes ->
    Node.parent node = "__SOURCE__" /\
    Node.children node = [] /\
    Node.localFile___NODE node = None /\
    (Node.typeOf node = TYPE_FOLDER ->
     Node.dropboxImage___NODE node <> None /\
     Node.dropboxMarkdown___NODE node <> None /\
     Node.lastModified node = None) /\
    (Node.typeOf node <> TYPE_FOLDER ->
     Node.dropboxImage___NODE node = None /\
     Node.dropboxMarkdown___NODE node = None /\
     Node.name node <> None /\ Node.path node <> None).
Proof.
  intros data options nodes node Hc Hin.
  apply createNodeData_Ok_inv in Hc as (entries & -> & ->).
  assert (Hfile : In node (fileNodesOf options entries) ->
            Node.parent node = "__SOURCE__" /\
            Node.children node = [] /\
            Node.localFile___NODE node = None /\
            (Node.typeOf node = TYPE_FOLDER ->
             Node.dropboxImage___NODE node <> None /\
             Node.dropboxMarkdown___NODE node <> None /\
             Node.lastModified node = None) /\
            (Node.typeOf node <> TYPE_FOLDER ->
             Node.dropboxImage___NODE node = None /\
             Node.dropboxMarkdown___NODE node = None /\
             Node.name node <> None /\ Node.path node <> None)).
  { intros Hf. pose proof (fileNodesOf_not_folder _ _ _ Hf) as Hty.
    unfold fileNodesOf in Hf. apply in_map_iff in Hf as (e & <- & _).
    repeat split; try reflexivity; try discriminate; contradiction. }
  destruct (Options.createFolderNodes options); [|auto].
  apply in_app_or in Hin as [Hin|Hin]; [|auto].
  apply in_map_iff in Hin as (d & <- & Hd).
  pose proof (folderNodesOf_folder _ _ Hd) as Hty.
  change (Node.typeOf (linkedFolder (fileNodesOf options entries) d))
    with (Node.typeOf d).
  unfold folderNodesOf in Hd. apply in_app_or in Hd as [Hd|[<-|[]]].
  - apply in_map_iff in Hd as (e & <- & _).
    repeat split; try reflexivity; try discriminate; contradiction.
  - repeat split; try reflexivity; try discriminate; contradiction.
Qed.

Lemma built_record_shape_witness :
  Node.parent (linkedFolder Sample.fileNodes (folderNode Sample.docs)) = "__SOURCE__" /\
  Node.children (linkedFolder Sample.fileNodes (folderNode Sample.docs)) = [].
Proof.
  destruct (built_record_shape
              (ListFolderResult [Sample.docs; Sample.a_md; Sample.b_png; Sample.c_jpg])
              defaultOptions
              (List.map (linkedFolder
                           (fileNodesOf defaultOptions
                              [Sample.docs; Sample.a_md; Sample.b_png; Sample.c_jpg]))
                        (folderNodesOf
                           [Sample.docs; Sample.a_md; Sample.b_png; Sample.c_jpg])
               ++ fileNodesOf defaultOptions
                    [Sample.docs; Sample.a_md; Sample.b_png; Sample.c_jpg])
              (linkedFolder Sample.fileNodes (folderNode Sample.docs)))
    as (Hparent & Hchildren & _).
  - apply createNodeData_listing.
  - left. reflexivity.
  - split; [exact Hparent|exact Hchildren].
Defined.

(** X8: with folder records enabled the synthetic root record is built for
    every listing, right after the listed folders, and both of its relation
    lists are empty whatever the listing holds: it has no [name] for a
    parent folder name to equal. *)
Theorem synthetic_root_always_built_empty :
  forall (entries : list Entry.t) (options : Options.t) (nodes : list Node.t),
    createNodeData (ListFolderResult entries) options = Ok nodes ->
    Options.createFolderNodes options = true ->
    nth_error nodes (length (List.filter isFolder entries))
      = Some (Node.withRelations rootFolderNode [] []) /\
    forall x, ~ inRelationLists x (Node.withRelations rootFolderNode [] []).
Proof.
  intros entries options nodes Hc Hopt.
  rewrite createNodeData_listing, Hopt in Hc. injection Hc as <-. split.
  - unfold folderNodesOf. rewrite List.map_app, <- List.app_assoc.
    rewrite nth_error_app2 by (rewrite !length_map; lia).
    rewrite !length_map, Nat.sub_diag. cbn. now rewrite root_folder_lists_empty.
  - intros x [(l & Hl & Hin)|(l & Hl & Hin)]; cbn in Hl;
      injection Hl as <-; exact Hin.
Qed.

Lemma synthetic_root_always_built_empty_witness :
  nth_error
    (List.map (linkedFolder (fileNodesOf defaultOptions [Sample.top_md]))
              (folderNodesOf [Sample.top_md])
     ++ fileNodesOf defaultOptions [Sample.top_md]) 0
  = Some (Node.withRelations rootFolderNode [] []).
Proof.
  apply (proj1 (synthetic_root_always_built_empty
                  [Sample.top_md] defaultOptions _
                  (createNodeData_listing [Sample.top_md] defaultOptions) eq_refl)).
Defined.

(** ** Digests of folder records *)

Lemma folderData_digest (folder : Entry.t) :
  JSON.stringify (folderData folder) =
  "{" +:+ JSON.quote "name" +:+ ":" +:+ JSON.quote (Entry.name folder) +:+
  "," +:+ JSON.quote "path" +:+ ":" +:+ JSON.quote (Entry.path_display folder) +:+ "}".
Proof.
  unfold JSON.stringify, folderData, JSON.property.
  cbn [JSON.defined List.map String.concat fst snd].
  rewrite ?app_assoc_str. reflexivity.
Qed.

(** X9: the [contentDigest] of two folder records is the same exactly when
    the folders agree on [name] and [path]; and the digest of the synthetic
    root, which is that of an object with the single property [name], is
    the digest of no listed folder, not even of one named [root]. *)
Theorem folder_digest_iff_name_and_path :
  forall (folder1 folder2 : Entry.t),
    (Node.contentDigest (Node.internal (folderNode folder1)) =
     Node.contentDigest (Node.internal (folderNode folder2))
     <->
     Entry.name folder1 = Entry.name folder2 /\
     Entry.path_display folder1 = Entry.path_display folder2) /\
    Node.contentDigest (Node.internal (folderNode folder1)) <>
    Node.contentDigest (Node.internal rootFolderNode).
Proof.
  intros folder1 folder2. cbn [folderNode rootFolderNode Node.internal Node.contentDigest].
  split; [split|].
  - rewrite !folderData_digest. intros H.
    do 3 apply app_prefix_inv in H.
    apply quote_app_inj in H as [Hn H].
    do 3 apply app_prefix_inv in H.
    apply quote_app_inj in H as [Hp _]. auto.
  - intros [Hn Hp]. rewrite !folderData_digest. congruence.
  - rewrite folderData_digest.
    replace (JSON.stringify [("name", Some "root")])
      with ("{" +:+ JSON.quote "name" +:+ ":" +:+ JSON.quote "root" +:+ "}")
      by reflexivity.
    intros H. do 3 apply app_prefix_inv in H.
    apply quote_app_inj in H as [_ H]. discriminate H.
Qed.

(** ** The listing step, further *)

Ltac run_getData :=
  unfold getData, tryCatch, bindA, retA, getFolderId, listFiles, emit, liftR.

Lemma getData_returns (dbx : Dropbox) (options : Options.t) (w : World) :
  exists data w',
    getData dbx options w = (Ok data, w') /\
    cache w' = cache w /\
    emitted (trace w') = emitted (trace w) /\
    (data = EmptyArray <-> listingFails dbx options) /\
    (forall entries, data = ListFolderResult entries ->
       exists folderId,
         filesListFolder dbx folderId (Options.recursive options) = Ok entries).
Proof.
  run_getData. unfold listingFails.
  destruct (String.eqb (Options.path options) EmptyString) eqn:Hpath; cbn.
  - apply String.eqb_eq in Hpath.
    destruct (filesListFolder dbx EmptyString (Options.recursive options))
      as [entries|e] eqn:Hlist; cbn;
      eexists _, _; (split; [reflexivity|]); cbn; (split; [reflexivity|]);
      rewrite ?emitted_app; cbn; rewrite ?app_nil_r; (split; [reflexivity|]).
    + split; [split|].
      * discriminate.
      * intros [(Hne & _)|(folderId & e & [(_ & ->)|(Hne & _)] & Hthrow)]; congruence.
      * intros es Hes. injection Hes as <-. eauto.
    + split; [split|].
      * intros _. right. exists EmptyString, e. auto.
      * reflexivity.
      * discriminate.
  - apply String.eqb_neq in Hpath.
    destruct (filesGetMetadata dbx (Options.path options)) as [folderId|e] eqn:Hmeta; cbn.
    + destruct (filesListFolder dbx folderId (Options.recursive options))
        as [entries|e] eqn:Hlist; cbn;
        eexists _, _; (split; [reflexivity|]); cbn; (split; [reflexivity|]);
        rewrite ?emitted_app; cbn; rewrite ?app_nil_r; (split; [reflexivity|]).
      * split; [split|].
        -- discriminate.
        -- intros [(_ & e & He)|(fid & e & [(Heq & _)|(_ & Hok)] & Hthrow)];
             congruence.
        -- intros es Hes. injection Hes as <-. eauto.
      * split; [split|].
        -- intros _. right. exists folderId, e. auto.
        -- reflexivity.
        -- discriminate.
    + eexists _, _. split; [reflexivity|]. cbn. split; [reflexivity|].
      rewrite ?emitted_app; cbn; rewrite ?app_nil_r. split; [reflexivity|].
      split; [split|].
      * intros _. left. eauto.
      * reflexivity.
      * discriminate.
Qed.

(** X10: [getData] never throws, hands nothing to [createNode] and leaves
    the cache alone; what it returns is the empty array exactly when
    resolving the path or listing the folder rejects, and otherwise the
    entries the listing call resolved to. *)
Theorem getData_fails_open :
  forall (dbx : Dropbox) (options : Options.t) (w : World),
    exists data w',
      getData dbx options w = (Ok data, w') /\
      cache w' = cache w /\
      emitted (trace w') = emitted (trace w) /\
      (data = EmptyArray <-> listingFails dbx options) /\
      (forall entries, data = ListFolderResult entries ->
         exists folderId,
           filesListFolder dbx folderId (Options.recursive options) = Ok entries).
Proof.
  intros dbx options w.
  destruct (getData_returns dbx options w) as (data & w' & Hrun & Hrest).
  exists data, w'. split; [exact Hrun|exact Hrest].
Qed.

(** X11: with the empty path [getData] makes a single call, listing the
    empty path, and never asks for metadata; with any other path it first
    resolves the path and then lists the id it got back, not the path; the
    [recursive] option is passed on as it is. *)
Theorem getData_call_sequence :
  forall (dbx : Dropbox) (options : Options.t) (w : World) (entries : list Entry.t),
    (Options.path options = EmptyString ->
     filesListFolder dbx EmptyString (Options.recursive options) = Ok entries ->
     getData dbx options w =
       (Ok (ListFolderResult entries),
        {| cache := cache w;
           trace := trace w ++ [ListFolder EmptyString (Options.recursive options)] |}))
    /\
    (forall folderId,
        Options.path options <> EmptyString ->
        filesGetMetadata dbx (Options.path options) = Ok folderId ->
        filesListFolder dbx folderId (Options.recursive options) = Ok entries ->
        getData dbx options w =
          (Ok (ListFolderResult entries),
           {| cache := cache w;
              trace := trace w ++ [GetMetadata (Options.path options);
                                   ListFolder folderId (Options.recursive options)] |})).
Proof.
  intros dbx options w entries. split.
  - intros Hpath Hlist. run_getData. rewrite Hpath. cbn. now rewrite Hlist.
  - intros folderId Hpath Hmeta Hlist. run_getData.
    apply String.eqb_neq in Hpath. rewrite Hpath. cbn. rewrite Hmeta. cbn.
    rewrite Hlist. cbn. now rewrite <- List.app_assoc.
Qed.

Lemma getData_call_sequence_witness :
  getData Sample.servingDbx defaultOptions Sample.emptyWorld =
    (Ok (ListFolderResult Fixture.listing),
     {| cache := cache Sample.emptyWorld;
        trace := trace Sample.emptyWorld ++ [ListFolder EmptyString true] |})
  /\
  getData Sample.servingDbx Fixture.photosOptions Sample.emptyWorld =
    (Ok (ListFolderResult Fixture.listing),
     {| cache := cache Sample.emptyWorld;
        trace := trace Sample.emptyWorld ++ [GetMetadata "/photos";
                                             ListFolder "id:home" false] |}).
Proof.
  split.
  - apply (proj1 (getData_call_sequence Sample.servingDbx defaultOptions
                    Sample.emptyWorld Fixture.listing)); reflexivity.
  - apply (proj2 (getData_call_sequence Sample.servingDbx Fixture.photosOptions
                    Sample.emptyWorld Fixture.listing) "id:home");
      [discriminate|reflexivity|reflexivity].
Defined.

(** ** The materializer, further *)

Ltac run_processRemoteFile :=
  unfold processRemoteFile, bindA, retA, tryCatch, cacheGet, cacheSet, getTemporaryUrl,
    createRemoteFileNode, touchNode, emit, liftR.

Section MaterializerFurther.

Variable dbx : Dropbox.
Variable createImpl : string -> string -> string -> Result (option string).
Variable basename : string -> string -> string.

(** The cache after [processRemoteFile]: as it was, or with one entry set
    under the record's own key. *)
Lemma processRemoteFile_cache (datum : Node.t) (w : World) :
  exists result w',
    processRemoteFile dbx createImpl basename datum w = (Ok result, w') /\
    (cache w' = cache w \/
     exists newId,
       cache w' = <[cacheKey (Node.id datum) := CacheData.mk newId]> (cache w)).
Proof.
  destruct (isFileType (Node.typeOf datum)) eqn:Hty.
  - destruct (cache w !! cacheKey (Node.id datum)) as [data|] eqn:Hc.
    + destruct (JS.truthy (CacheData.fileNodeID data)) eqn:Ht.
      * rewrite (processRemoteFile_warm dbx createImpl basename datum w data Hty Hc Ht).
        eexists _, _. split; [reflexivity|]. now left.
      * run_processRemoteFile. rewrite Hty. cbn. rewrite Hc. cbn. rewrite Ht. cbn.
        destruct (filesGetTemporaryLink dbx (Node.path datum)) as [url|e]; cbn;
          [destruct (Node.name datum) as [name|]; cbn;
           [destruct (createImpl url (Path.extname name)
                        (basename name (Path.extname name))) as [[newId|]|e]; cbn|]|];
          eexists _, _; (split; [reflexivity|]); cbn; eauto.
    + destruct (processRemoteFile_cold dbx createImpl basename datum w Hty Hc)
        as (events & _ & ->).
      eexists _, _. split; [reflexivity|]. cbn.
      destruct (downloadOutcome _ _ _ _); eauto.
  - rewrite (processRemoteFile_other_type dbx createImpl basename datum w Hty).
    eexists _, _. split; [reflexivity|]. now left.
Qed.

End MaterializerFurther.

Lemma sameButPayload_ids (nodes out : list Node.t) :
  Forall2 sameButPayload nodes out -> List.map Node.id out = List.map Node.id nodes.
Proof.
  induction 1 as [|d r nodes out Hres _ IH]; [reflexivity|]. cbn. rewrite IH.
  now destruct Hres as [->|(ref & _ & ->)].
Qed.

(** X12: for a record of a file type with nothing cached, when the link is
    granted and the file node is created, [processRemoteFile] makes four
    calls in this order: the cache lookup, the link request for the
    record's [path], the creation with the link and the extension of the
    record's [name], and the cache write of the new id under
    [dropbox-file-] followed by the record's id; the id is attached if it is
    truthy and is cached either way. *)
Theorem cold_download_caches_and_attaches :
  forall (dbx : Dropbox)
         (createImpl : string -> string -> string -> Result (option string))
         (basename : string -> string -> string)
         (datum : Node.t) (w : World) (url name newId : string),
    isFileType (Node.typeOf datum) = true ->
    cache w !! cacheKey (Node.id datum) = None ->
    filesGetTemporaryLink dbx (Node.path datum) = Ok url ->
    Node.name datum = Some name ->
    createImpl url (Path.extname name) (basename name (Path.extname name))
      = Ok (Some newId) ->
    exists w',
      processRemoteFile dbx createImpl basename datum w =
        (Ok (if JS.truthy newId then Node.withLocalFile datum newId else datum), w') /\
      trace w' =
        trace w ++ [CacheGet (cacheKey (Node.id datum));
                    GetTemporaryLink (Node.path datum);
                    CreateRemoteFileNode url (Path.extname name)
                      (basename name (Path.extname name));
                    CacheSet (cacheKey (Node.id datum)) (CacheData.mk newId)] /\
      cache w' !! cacheKey (Node.id datum) = Some (CacheData.mk newId) /\
      (forall key, key <> cacheKey (Node.id datum) -> cache w' !! key = cache w !! key).
Proof.
  intros dbx createImpl basename datum w url name newId Hty Hmiss Hlink Hname Hcreate.
  run_processRemoteFile. rewrite Hty. cbn. rewrite Hmiss. cbn. rewrite Hlink. cbn.
  rewrite Hname. cbn. rewrite Hcreate. cbn.
  eexists. split; [reflexivity|]. cbn. split; [|split].
  - now rewrite <- !List.app_assoc.
  - apply lookup_insert_eq.
  - intros key Hkey. now rewrite lookup_insert_ne by congruence.
Qed.

Lemma cold_download_caches_and_attaches_witness :
  exists w',
    processRemoteFile Sample.servingDbx Sample.createImpl Sample.basename
      (fileNode defaultOptions Sample.a_md) Sample.emptyWorld =
      (Ok (Node.withLocalFile (fileNode defaultOptions Sample.a_md)
             "file:https://dl.example/docs/a.md"), w') /\
    trace w' =
      [CacheGet "dropbox-file-1";
       GetTemporaryLink (Some "/docs/a.md");
       CreateRemoteFileNode "https://dl.example/docs/a.md" ".md" "a";
       CacheSet "dropbox-file-1" (CacheData.mk "file:https://dl.example/docs/a.md")] /\
    cache w' !! "dropbox-file-1" = Some (CacheData.mk "file:https://dl.example/docs/a.md").
Proof.
  destruct (cold_download_caches_and_attaches
              Sample.servingDbx Sample.createImpl Sample.basename
              (fileNode defaultOptions Sample.a_md) Sample.emptyWorld
              "https://dl.example/docs/a.md" "a.md" "file:https://dl.example/docs/a.md")
    as (w' & Hrun & Htrace & Hcache & _).
  - reflexivity.
  - apply lookup_empty.
  - reflexivity.
  - reflexivity.
  - reflexivity.
  - exists w'. split; [exact Hrun|]. split; [exact Htrace|exact Hcache].
Defined.

(** X13: when [createRemoteFileNode] resolves to a falsy value nothing is
    thrown and nothing logged: after the lookup, the link request and the
    creation call, the record comes back as it was and the cache is left
    unwritten, so the next run asks for a link again. *)
Theorem falsy_file_node_caches_nothing :
  forall (dbx : Dropbox)
         (createImpl : string -> string -> string -> Result (option string))
         (basename : string -> string -> string)
         (datum : Node.t) (w : World) (url name : string),
    isFileType (Node.typeOf datum) = true ->
    cache w !! cacheKey (Node.id datum) = None ->
    filesGetTemporaryLink dbx (Node.path datum) = Ok url ->
    Node.name datum = Some name ->
    createImpl url (Path.extname name) (basename name (Path.extname name)) = Ok None ->
    processRemoteFile dbx createImpl basename datum w =
      (Ok datum,
       {| cache := cache w;
          trace := trace w ++ [CacheGet (cacheKey (Node.id datum));
                               GetTemporaryLink (Node.path datum);
                               CreateRemoteFileNode url (Path.extname name)
                                 (basename name (Path.extname name))] |}).
Proof.
  intros dbx createImpl basename datum w url name Hty Hmiss Hlink Hname Hcreate.
  run_processRemoteFile. rewrite Hty. cbn. rewrite Hmiss. cbn. rewrite Hlink. cbn.
  rewrite Hname. cbn. rewrite Hcreate. cbn. now rewrite <- !List.app_assoc.
Qed.

Lemma falsy_file_node_caches_nothing_witness :
  processRemoteFile Sample.servingDbx Fixture.createNothing Sample.basename
    (fileNode defaultOptions Sample.a_md) Sample.emptyWorld =
    (Ok (fileNode defaultOptions Sample.a_md),
     {| cache := cache Sample.emptyWorld;
        trace := trace Sample.emptyWorld ++
                 [CacheGet (cacheKey "1");
                  GetTemporaryLink (Some "/docs/a.md");
                  CreateRemoteFileNode "https://dl.example/docs/a.md" ".md"
                    (Sample.basename "a.md" ".md")] |}).
Proof.
  apply (falsy_file_node_caches_nothing
           Sample.servingDbx Fixture.createNothing Sample.basename
           (fileNode defaultOptions Sample.a_md) Sample.emptyWorld
           "https://dl.example/docs/a.md" "a.md").
  - reflexivity.
  - apply lookup_empty.
  - reflexivity.
  - reflexivity.
  - reflexivity.
Defined.

(** X14: [processRemoteFile] changes the cache by at most one write, under
    the record's own key: it never removes an entry and never touches the
    entry of a record with another id. *)
Theorem processRemoteFile_writes_own_key_only :
  forall (dbx : Dropbox)
         (createImpl : string -> string -> string -> Result (option string))
         (basename : string -> string -> string)
         (datum : Node.t) (w : World),
    exists result w',
      processRemoteFile dbx createImpl basename datum w = (Ok result, w') /\
      (cache w' = cache w \/
       exists newId,
         cache w' = <[cacheKey (Node.id datum) := CacheData.mk newId]> (cache w)) /\
      (forall key, is_Some (cache w !! key) -> is_Some (cache w' !! key)) /\
      (forall other : Node.t,
          Node.id other <> Node.id datum ->
          cache w' !! cacheKey (Node.id other) = cache w !! cacheKey (Node.id other)).
Proof.
  intros dbx createImpl basename datum w.
  destruct (processRemoteFile_cache dbx createImpl basename datum w)
    as (result & w' & Hrun & Hcache).
  exists result, w'. split; [exact Hrun|]. split; [exact Hcache|]. split.
  - intros key Hsome. destruct Hcache as [->|(newId & ->)]; [exact Hsome|].
    destruct (decide (cacheKey (Node.id datum) = key)) as [<-|Hne].
    + rewrite lookup_insert_eq. eauto.
    + now rewrite lookup_insert_ne.
  - intros other Hother. destruct Hcache as [->|(newId & ->)]; [reflexivity|].
    apply lookup_insert_ne. intros Heq. apply cacheKey_inj in Heq. congruence.
Qed.

Lemma getData_resolves (dbx : Dropbox) (options : Options.t) (entries : list Entry.t)
    (w : World) :
  listingResolves dbx options entries ->
  exists events,
    emitted events = [] /\
    getData dbx options w =
      (Ok (ListFolderResult entries),
       {| cache := cache w; trace := trace w ++ events |}).
Proof.
  intros (folderId & [(Hpath & ->)|(Hpath & Hmeta)] & Hlist); run_getData.
  - rewrite Hpath. cbn. rewrite Hlist. cbn.
    eexists. split; [|reflexivity]. reflexivity.
  - apply String.eqb_neq in Hpath. rewrite Hpath. cbn. rewrite Hmeta. cbn.
    rewrite Hlist. cbn. rewrite <- List.app_assoc.
    eexists. split; [|reflexivity]. reflexivity.
Qed.

Lemma Forall2_eventual (dbx : Dropbox)
    (createImpl : string -> string -> string -> Result (option string))
    (basename : string -> string -> string)
    (c : gmap string CacheData.t) (nodes : list Node.t) :
  Forall2 sameButPayload nodes
    (List.map (fun datum =>
                 eventual dbx createImpl basename (c !! cacheKey (Node.id datum)) datum)
              nodes).
Proof.
  induction nodes as [|datum nodes IH]; cbn; constructor;
    [apply eventual_sameButPayload|exact IH].
Qed.

(** X15: when the listing step resolves to some entries, [sourceNodes]
    returns normally whatever the cache holds, whatever the downloads do and
    whatever the order in which the awaited calls settle, and hands to
    [createNode], once each and in some order, the records [createNodeData]
    builds from those entries, each as built or with a truthy payload
    reference attached. *)
Theorem sourceNodes_emits_every_built_record :
  forall (dbx : Dropbox)
         (createImpl : string -> string -> string -> Result (option string))
         (basename : string -> string -> string) (schedule : list nat)
         (pluginOptions : PluginOptions.t) (w : World) (entries : list Entry.t),
    listingResolves dbx (mergeOptions defaultOptions pluginOptions) entries ->
    exists nodes results out w',
      createNodeData (ListFolderResult entries)
        (mergeOptions defaultOptions pluginOptions) = Ok nodes /\
      sourceNodes dbx createImpl basename schedule pluginOptions w = (Ok tt, w') /\
      emitted (trace w') = emitted (trace w) ++ out /\
      Permutation out results /\
      Forall2 sameButPayload nodes results /\
      Permutation (List.map Node.id out)
        (builtIds (mergeOptions defaultOptions pluginOptions) entries).
Proof.
  intros dbx createImpl basename schedule pluginOptions w entries Hlist.
  destruct (getData_resolves dbx _ entries w Hlist) as (events & Hev & Hget).
  pose proof (createNodeData_listing entries (mergeOptions defaultOptions pluginOptions))
    as Hbuild.
  set (nodes := if Options.createFolderNodes (mergeOptions defaultOptions pluginOptions)
                then _ else _) in Hbuild.
  set (w1 := {| cache := cache w; trace := trace w ++ events |}) in *.
  destruct (emitAll_settles dbx createImpl basename schedule nodes w1)
    as (w' & out & Hrun & Hem & Hperm).
  pose proof (Forall2_eventual dbx createImpl basename (cache w1) nodes) as Hall.
  eexists nodes, _, out, w'. split; [exact Hbuild|]. split; [|split; [|split; [|split]]].
  - unfold sourceNodes, bindA at 1. rewrite Hget.
    unfold bindA, liftR. rewrite Hbuild. exact Hrun.
  - rewrite Hem. subst w1. cbn. now rewrite emitted_app, Hev, app_nil_r.
  - exact Hperm.
  - exact Hall.
  - rewrite (Permutation_map Node.id Hperm), (sameButPayload_ids _ _ Hall).
    subst nodes. now rewrite ids_of_built.
Qed.

Lemma sourceNodes_emits_every_built_record_witness :
  exists nodes results out w',
    createNodeData (ListFolderResult Fixture.listing)
      (mergeOptions defaultOptions PluginOptions.none) = Ok nodes /\
    sourceNodes Sample.servingDbx Sample.createImpl Sample.basename
      (Fixture.roundRobin 5 2) PluginOptions.none Sample.warmWorld = (Ok tt, w') /\
    emitted (trace w') = emitted (trace Sample.warmWorld) ++ out /\
    Permutation out results /\
    Forall2 sameButPayload nodes results /\
    Permutation (List.map Node.id out)
      (builtIds (mergeOptions defaultOptions PluginOptions.none) Fixture.listing).
Proof.
  apply (sourceNodes_emits_every_built_record
           Sample.servingDbx Sample.createImpl Sample.basename
           (Fixture.roundRobin 5 2) PluginOptions.none Sample.warmWorld Fixture.listing).
  exists EmptyString. split; [left; split; reflexivity|reflexivity].
Defined.
